(** * Perimeter-control orchestration loop (src/src/main.py)

    A shallow embedding of the measurement, aggregation and cycle-synchronised
    actuation pipeline of [main.py], and the properties of it that the
    specification states.

    Conventions of the embedding.
    - Python [float]s are IEEE-754 binary64 numbers: they are Rocq's primitive
      [float]s, with the same rounding.  The integer literals that the source
      mixes into float arithmetic ([0], [10], [len(...)]) are small and are
      converted exactly, as Python converts them.
    - Phase indices and counts are [Z].
    - A Python [dict] keeps insertion order and the actuator iterates over it,
      so a dictionary is an association list with unique keys ([PyDict]).
    - An exception is a value of [exn]; code that may raise returns [res].
      [try]/[except] blocks are written out with [try_except].
    - The simulator (TraCI) is external: it is an interface [Traci] over an
      abstract simulator state, and [MockSim] gives one concrete
      implementation used for the closed examples.
    - [logging] calls do not change any state and are left out. *)

From Stdlib Require Import ZArith Floats Uint63 Bool.
From stdpp Require Import base tactics option list strings.

#[local] Set Warnings "-inexact-float".

Local Open Scope Z_scope.

(* ===================================================================== *)
(** ** Exceptions and results *)
(* ===================================================================== *)

(** The exception classes that the source distinguishes.  [TraCIException]
    and [FatalTraCIError] are both direct subclasses of [Exception]; neither
    is a subclass of the other. *)
Inductive exn : Type :=
| TraCIException (msg : string)
| FatalTraCIError (msg : string)
| IndexError
| KeyError (key : string).

Inductive res (A : Type) : Type :=
| Ok (a : A)
| Raise (e : exn).

Arguments Ok {A} a.
Arguments Raise {A} e.

Definition bind {A B : Type} (c : res A) (k : A -> res B) : res B :=
  match c with
  | Ok a => k a
  | Raise e => Raise e
  end.

Notation "'let!' x ':=' c 'in' k" := (bind c (fun x => k))
  (at level 10, x name, c at level 100, k at level 200).

(** [try: body except e: handler e] *)
Definition try_except {A : Type} (body : res A) (handler : exn -> res A) : res A :=
  match body with
  | Ok a => Ok a
  | Raise e => handler e
  end.

Definition is_traci_exception (e : exn) : bool :=
  match e with
  | TraCIException _ => true
  | _ => false
  end.

(** [str(e)] *)
Definition exn_str (e : exn) : string :=
  match e with
  | TraCIException msg => msg
  | FatalTraCIError msg => msg
  | IndexError => "list index out of range"
  | KeyError k => "'" +:+ k +:+ "'"
  end.

(** Python's [needle in haystack] on strings. *)
Fixpoint str_contains (needle haystack : string) : bool :=
  String.prefix needle haystack
  || match haystack with
     | EmptyString => false
     | String _ rest => str_contains needle rest
     end.

(* ===================================================================== *)
(** ** Insertion-ordered dictionaries *)
(* ===================================================================== *)

Module PyDict.

Definition dict (V : Type) : Type := list (string * V).

Section Ops.
Context {V : Type}.

Definition empty : dict V := [].

Fixpoint get (k : string) (d : dict V) : option V :=
  match d with
  | [] => None
  | (k', v) :: rest => if decide (k = k') then Some v else get k rest
  end.

Definition mem (k : string) (d : dict V) : bool :=
  match get k d with Some _ => true | None => false end.

(** [d[k] = v]: an existing key keeps its position, a new key goes last. *)
Fixpoint set (k : string) (v : V) (d : dict V) : dict V :=
  match d with
  | [] => [(k, v)]
  | (k', v') :: rest =>
      if decide (k = k') then (k', v) :: rest else (k', v') :: set k v rest
  end.

(** [del d[k]] for a key that is present.  The keys of a dictionary are
    unique; every entry of the key is dropped. *)
Fixpoint del (k : string) (d : dict V) : dict V :=
  match d with
  | [] => []
  | (k', v') :: rest =>
      if decide (k = k') then del k rest else (k', v') :: del k rest
  end.

(** [d.update(other)] *)
Definition update (d other : dict V) : dict V :=
  fold_left (fun acc kv => set (fst kv) (snd kv) acc) other d.

Definition keys (d : dict V) : list string := map fst d.

Definition is_empty (d : dict V) : bool :=
  match d with [] => true | _ => false end.

End Ops.

End PyDict.

Abbreviation dict := PyDict.dict.

(* ===================================================================== *)
(** ** Data model *)
(* ===================================================================== *)

(** One phase of a signal program ([traci.trafficlight.Phase]). *)
Record Phase : Type := mkPhase {
  duration : float;
  state : string;
  minDur : float;
  maxDur : float
}.

(** A signal program ([traci.trafficlight.Logic]). *)
Record Logic : Type := mkLogic {
  programID : string;
  logic_type : Z;
  currentPhaseIndex : Z;
  phases : list Phase
}.

(** A green-time plan: [{'p': duration, 's': [durations...]}]. *)
Record GreenTimes : Type := mkGreenTimes {
  gt_p : float;
  gt_s : list float
}.

(** The phase layout of an intersection.  [pi_p] is
    [phase_info.get('p', {}).get('phase_indices', [])]; [pi_s] lists, for
    every entry of [phase_info.get('s', [])], its ['phase_indices'] (a
    missing or empty list is []). *)
Record PhaseInfo : Type := mkPhaseInfo {
  pi_p : list Z;
  pi_s : list (list Z)
}.

(** Modelled from the spec: the class [IntersectionConfigManager]
    (data/intersection_config_manager.py) is not part of the sources at
    hand.  Its two lookups follow the Config Provider contract:
    [resolveTrafficLightId(intersectionId) -> id | none] and
    [getPhaseInfo(intersectionId) -> {...} | none]. *)
Record IntersectionConfigManager : Type := mkConfigManager {
  get_traffic_light_id : string -> option string;
  get_phase_info : string -> option PhaseInfo
}.

(** The entry of one intersection in [get_solver_input_detectors()]:
    [details['phases']['p']['queue_detectors']] and, for every entry of
    [details['phases']['s']], its ['queue_detectors']. *)
Record SolverDetectors : Type := mkSolverDetectors {
  sd_p : list string;
  sd_s : list (list string)
}.

(** [queue_samples[int_id]]: [{'p': [...], 's': [[...], ...]}]. *)
Record QueueSamples : Type := mkQueueSamples {
  qs_p : list float;
  qs_s : list (list float)
}.

(** [latest_aggregated_queue_lengths[int_id]]: [{'p': avg_p, 's': avg_s}]. *)
Record QueueLengths : Type := mkQueueLengths {
  ql_p : float;
  ql_s : list float
}.

(** The hand-off dictionary shared with the controller.  Only the two keys
    that [prepare_logic_update] reads are modelled; [None] is an absent key. *)
Record SharedDict : Type := mkSharedDict {
  is_active : option bool;
  green_times : option (dict GreenTimes)
}.

(* ===================================================================== *)
(** ** The simulator interface *)
(* ===================================================================== *)

(** The TraCI calls made by [main.py], over an abstract simulator state.
    Queries do not change the simulator; [simulationStep] and
    [setCompleteRedYellowGreenDefinition] return the new state.
    [simulationStep] stands for [sumo_sim.step()]: the class [SumoSim]
    (sumosim.py) is not part of the sources at hand, and the Simulator
    contract of the specification lists it as the "stepped advance". *)
Class Traci (Sim : Type) : Type := {
  simulationStep : Sim -> res Sim;
  simulation_getTime : Sim -> res float;
  simulation_getDeltaT : Sim -> res float;
  simulation_getMinExpectedNumber : Sim -> res Z;
  lanearea_getLastIntervalOccupancy : Sim -> string -> res float;
  trafficlight_getAllProgramLogics : Sim -> string -> res (list Logic);
  trafficlight_getProgram : Sim -> string -> res string;
  trafficlight_getPhase : Sim -> string -> res Z;
  trafficlight_getNextSwitch : Sim -> string -> res float;
  trafficlight_getCompleteRedYellowGreenDefinition : Sim -> string -> res (list Logic);
  trafficlight_setCompleteRedYellowGreenDefinition : Sim -> string -> Logic -> res Sim
}.

(* ===================================================================== *)
(** ** Detector sampler *)
(* ===================================================================== *)

(** The body of the loop of [get_sum_from_traci_detectors] for one detector
    (main.py:198-202).  [num_lane / (100 * average_length_of_vehicles)] is
    the true division 1 / 300 of two integers, which is the binary64
    quotient of 1.0 and 300.0. *)
Definition accumulation (space_occupancy : float) : float :=
  let road_length := 80%float in
  let average_length_of_vehicles := 3%float in
  let num_lane := 1%float in
  (road_length * (num_lane / (100 * average_length_of_vehicles)) * space_occupancy)%float.

Section Sampler.
Context {Sim : Type} {TR : Traci Sim}.

(** [for det_id in detector_ids: ... total_accumulation += accumulation]
    (main.py:196-203) *)
Fixpoint sum_detectors (sim : Sim) (detector_ids : list string)
         (total_accumulation : float) : res float :=
  match detector_ids with
  | [] => Ok total_accumulation
  | det_id :: rest =>
      let! space_occupancy := lanearea_getLastIntervalOccupancy sim det_id in
      sum_detectors sim rest (total_accumulation + accumulation space_occupancy)%float
  end.

(** main.py:189-208.  The integer [0] that the source returns for an
    empty list and after a TraCI error is the float 0. *)
Definition get_sum_from_traci_detectors (sim : Sim) (detector_ids : list string)
  : res float :=
  try_except (sum_detectors sim detector_ids 0%float)
    (fun e => if is_traci_exception e then Ok 0%float else Raise e).

End Sampler.

(* ===================================================================== *)
(** ** Rewriting a signal program *)
(* ===================================================================== *)

Definition with_duration (d : float) (ph : Phase) : Phase :=
  {| duration := d; state := state ph; minDur := minDur ph; maxDur := maxDur ph |}.

(** [0 <= phase_index < len(phases)] *)
Definition phase_index_in_range (phase_index : Z) (phs : list Phase) : bool :=
  (0 <=? phase_index) && (phase_index <? Z.of_nat (length phs)).

(** [if 0 <= phase_index < len(logic.phases):
       logic.phases[phase_index].duration = d] *)
Definition set_phase_duration (phase_index : Z) (d : float) (phs : list Phase)
  : list Phase :=
  if phase_index_in_range phase_index phs
  then alter (with_duration d) (Z.to_nat phase_index) phs
  else phs.

(** [for phase_index in main_phases: ...] (main.py:94-96) *)
Definition update_main_phases (main_phases : list Z) (p : float) (phs : list Phase)
  : list Phase :=
  fold_left (fun acc phase_index => set_phase_duration phase_index p acc) main_phases phs.

(** [[s_phase['phase_indices'][0] for s_phase in phase_info.get('s', [])
      if s_phase.get('phase_indices')]] (main.py:99) *)
Definition secondary_phases (phase_info : PhaseInfo) : list Z :=
  omap head (pi_s phase_info).

(** [for i, phase_index in enumerate(secondary_phases):
       if 0 <= phase_index < len(logic.phases) and i < len(new_times['s']):
           logic.phases[phase_index].duration = new_times['s'][i]]
    (main.py:100-102), started at position [i]. *)
Fixpoint update_secondary_phases (s : list float) (i : nat) (secondary : list Z)
         (phs : list Phase) : list Phase :=
  match secondary with
  | [] => phs
  | phase_index :: rest =>
      let phs' :=
        match s !! i with
        | Some d => set_phase_duration phase_index d phs
        | None => phs
        end in
      update_secondary_phases s (S i) rest phs'
  end.

Definition update_phases (new_times : GreenTimes) (phase_info : PhaseInfo)
           (phs : list Phase) : list Phase :=
  update_secondary_phases (gt_s new_times) 0 (secondary_phases phase_info)
    (update_main_phases (pi_p phase_info) (gt_p new_times) phs).

Definition update_logic (new_times : GreenTimes) (phase_info : PhaseInfo)
           (logic : Logic) : Logic :=
  {| programID := programID logic;
     logic_type := logic_type logic;
     currentPhaseIndex := currentPhaseIndex logic;
     phases := update_phases new_times phase_info (phases logic) |}.

(** [xs[0]] *)
Definition first_item {A : Type} (xs : list A) : res A :=
  match xs with
  | x :: _ => Ok x
  | [] => Raise IndexError
  end.

(** [d[k]] *)
Definition dict_item {V : Type} (k : string) (d : dict V) : res V :=
  match PyDict.get k d with
  | Some v => Ok v
  | None => Raise (KeyError k)
  end.

Section Actuator.
Context {Sim : Type} {TR : Traci Sim}.

(** main.py:79-108 *)
Definition update_traffic_light_logic (sim : Sim) (tl_id : string)
           (new_times : GreenTimes) (phase_info : PhaseInfo) : res Sim :=
  try_except
    (let! logics := trafficlight_getCompleteRedYellowGreenDefinition sim tl_id in
     let! logic := first_item logics in
     trafficlight_setCompleteRedYellowGreenDefinition sim tl_id
       (update_logic new_times phase_info logic))
    (fun e => if is_traci_exception e then Ok sim else Raise e).

End Actuator.

(* ===================================================================== *)
(** ** Pending plan store *)
(* ===================================================================== *)

(** [shared_dict.get('is_active', False)] *)
Definition shared_is_active (shared_dict : SharedDict) : bool :=
  default false (is_active shared_dict).

(** [prepare_logic_update] (main.py:114-130), on the hand-off dictionary
    and the global [pending_logic_updates]. *)
Definition prepare_logic_update (shared_dict : SharedDict)
           (pending_logic_updates : dict GreenTimes)
  : SharedDict * dict GreenTimes :=
  if shared_is_active shared_dict then
    match green_times shared_dict with
    | Some gts =>
        if PyDict.is_empty gts then (shared_dict, pending_logic_updates)
        else ({| is_active := is_active shared_dict; green_times := None |},
              PyDict.update pending_logic_updates gts)
    | None => (shared_dict, pending_logic_updates)
    end
  else (shared_dict, pending_logic_updates).

(* ===================================================================== *)
(** ** Cycle-synchronised actuator *)
(* ===================================================================== *)

(** What the actuator reads of one traffic light in a step. *)
Record CycleState : Type := mkCycleState {
  current_phase_index : Z;
  num_phases : Z;
  time_to_next_switch : float
}.

Definition is_last_phase (cs : CycleState) : bool :=
  current_phase_index cs =? num_phases cs - 1.

Definition is_about_to_reset (sim_step : float) (cs : CycleState) : bool :=
  (time_to_next_switch cs <=? sim_step)%float.

Definition trigger (sim_step : float) (cs : CycleState) : bool :=
  is_last_phase cs && is_about_to_reset sim_step cs.

Section ApplyPending.
Context {Sim : Type} {TR : Traci Sim}.
Variable config_manager : IntersectionConfigManager.
Variable sim_step : float.

(** The queries at the head of the [try] block (main.py:149-157).
    [None] is the [if not current_logic: continue] exit. *)
Definition read_cycle_state (sim : Sim) (tl_id : string) : res (option CycleState) :=
  let! program_logics := trafficlight_getAllProgramLogics sim tl_id in
  let! current_program_id := trafficlight_getProgram sim tl_id in
  match find (fun p => String.eqb (programID p) current_program_id) program_logics with
  | None => Ok None
  | Some current_logic =>
      let! phase := trafficlight_getPhase sim tl_id in
      let! next_switch := trafficlight_getNextSwitch sim tl_id in
      let! now := simulation_getTime sim in
      Ok (Some {| current_phase_index := phase;
                  num_phases := Z.of_nat (length (phases current_logic));
                  time_to_next_switch := (next_switch - now)%float |})
  end.

(** The body of the [try] block for one intersection (main.py:148-174). *)
Definition check_and_apply (int_id tl_id : string)
           (st : Sim * dict GreenTimes) : res (Sim * dict GreenTimes) :=
  let '(sim, pending) := st in
  let! cycle := read_cycle_state sim tl_id in
  match cycle with
  | None => Ok st
  | Some cs =>
      if trigger sim_step cs then
        let! new_green_times := dict_item int_id pending in
        match get_phase_info config_manager int_id with
        | Some phase_info =>
            let! sim' := update_traffic_light_logic sim tl_id new_green_times phase_info in
            Ok (sim', PyDict.del int_id pending)
        | None => Ok st
        end
      else Ok st
  end.

(** The two [except] clauses of the loop body (main.py:176-182). *)
Definition on_exception (int_id : string) (st : Sim * dict GreenTimes) (e : exn)
  : res (Sim * dict GreenTimes) :=
  if is_traci_exception e then
    if str_contains "does not exist" (exn_str e)
    then Ok (fst st, PyDict.del int_id (snd st))
    else Ok st
  else Ok st.

(** One turn of [for int_id in list(pending_logic_updates.keys())]
    (main.py:142-182).
    [if not tl_id: continue] leaves on [None] and on the empty string. *)
Definition apply_one (st : Sim * dict GreenTimes) (int_id : string)
  : res (Sim * dict GreenTimes) :=
  match get_traffic_light_id config_manager int_id with
  | None => Ok st
  | Some tl_id =>
      if String.eqb tl_id "" then Ok st
      else try_except (check_and_apply int_id tl_id st) (on_exception int_id st)
  end.

Fixpoint apply_each (int_ids : list string) (st : Sim * dict GreenTimes)
  : res (Sim * dict GreenTimes) :=
  match int_ids with
  | [] => Ok st
  | int_id :: rest =>
      let! st' := apply_one st int_id in
      apply_each rest st'
  end.

(** main.py:132-182, on the simulator and the global
    [pending_logic_updates]. *)
Definition apply_pending_updates_on_cycle_start (st : Sim * dict GreenTimes)
  : res (Sim * dict GreenTimes) :=
  if PyDict.is_empty (snd st) then Ok st
  else apply_each (PyDict.keys (snd st)) st.

End ApplyPending.

(* ===================================================================== *)
(** ** Sample buffers and aggregation *)
(* ===================================================================== *)

(** [float(n)] for a length [n] (exact below 2^53). *)
Definition float_of_nat (n : nat) : float :=
  PrimFloat.of_uint63 (Uint63.of_Z (Z.of_nat n)).

(** [sum(xs)]: from 0, left to right.  (CPython 3.12 and later also
    compensate the rounding error of a sum of floats; that refinement is not
    modelled.) *)
Definition py_sum (xs : list float) : float :=
  fold_left PrimFloat.add xs 0%float.

(** [sum(xs) / len(xs)] *)
Definition mean (xs : list float) : float :=
  (py_sum xs / float_of_nat (length xs))%float.

(** [sum(xs) / len(xs) if xs else 0] *)
Definition mean_or_zero (xs : list float) : float :=
  match xs with
  | [] => 0%float
  | _ => mean xs
  end.

(** main.py:211-220 *)
Definition initialize_queue_samples (solver_detectors : dict SolverDetectors)
  : dict QueueSamples :=
  fold_left
    (fun queue_samples kv =>
       let num_secondary_phases := length (sd_s (snd kv)) in
       PyDict.set (fst kv)
         {| qs_p := []; qs_s := replicate num_secondary_phases [] |}
         queue_samples)
    solver_detectors PyDict.empty.

(** The sample buffers: [n_samples] and [queue_samples]. *)
Record Buffers : Type := mkBuffers {
  n_samples : list float;
  queue_samples : dict QueueSamples
}.

Definition clear_queue_samples (qs : QueueSamples) : QueueSamples :=
  {| qs_p := []; qs_s := map (fun _ => []) (qs_s qs) |}.

(** main.py:222-228 *)
Definition clear_samples (b : Buffers) : Buffers :=
  {| n_samples := [];
     queue_samples := map (fun kv => (fst kv, clear_queue_samples (snd kv)))
                          (queue_samples b) |}.

(** The aggregated measurements. *)
Record Measurements : Type := mkMeasurements {
  latest_aggregated_n : float;
  latest_aggregated_queue_lengths : dict QueueLengths
}.

(** [for int_id, data in queue_samples.items():
       latest_aggregated_queue_lengths[int_id] = {'p': avg_p, 's': avg_s}]
    (main.py:342-345) *)
Definition aggregate_queues (queue_samples : dict QueueSamples)
           (latest : dict QueueLengths) : dict QueueLengths :=
  fold_left
    (fun acc kv =>
       let avg_p := mean_or_zero (qs_p (snd kv)) in
       let avg_s := map mean_or_zero (qs_s (snd kv)) in
       PyDict.set (fst kv) {| ql_p := avg_p; ql_s := avg_s |} acc)
    queue_samples latest.

(** The next-fire times of the loop. *)
Record Schedule : Type := mkSchedule {
  next_sampling_time : float;
  next_aggregation_time : float;
  next_control_time : float;
  next_log_time : float
}.

(** The parameters read at start-up.  [CONTROL_INTERVAL_S] is a constant of
    algorithm/algo.py, which is not part of the sources at hand; it is a
    parameter here. *)
Record SimulationConfig : Type := mkSimulationConfig {
  sampling_interval_s : float;
  aggregation_interval_s : float;
  total_simulation_time : float;
  CONTROL_INTERVAL_S : float;
  algorithm_detector_ids : list string;
  solver_detectors : dict SolverDetectors;
  intersection_config_mgr : IntersectionConfigManager
}.

(** Modelled from the spec: the class [PerimeterController]
    (algorithm/algo.py) is not part of the sources at hand.  Following the
    Controller contract, a step takes the current and the previous
    accumulation, the carried scalar and the queue means, returns the new
    carried scalar ([result.qg_new]) and may publish plans into the hand-off
    dictionary. *)
Class Controller (Ctl : Type) : Type := {
  run_simulation_step :
    Ctl -> float -> float -> float -> dict QueueLengths -> SharedDict ->
    res (float * Ctl * SharedDict)
}.

Section Sampling.
Context {Sim : Type} {TR : Traci Sim}.

(** [for i, s_phase in enumerate(phases.get('s', [])):
       if i < len(queue_samples[int_id]['s']):
           queue_samples[int_id]['s'][i].append(get_sum(s_detectors))] *)
Fixpoint sample_secondary (sim : Sim) (i : nat) (s_phases : list (list string))
         (s_samples : list (list float)) : res (list (list float)) :=
  match s_phases with
  | [] => Ok s_samples
  | s_detectors :: rest =>
      match s_samples !! i with
      | Some buffer =>
          let! sample := get_sum_from_traci_detectors sim s_detectors in
          sample_secondary sim (S i) rest (<[i := buffer ++ [sample]]> s_samples)
      | None => sample_secondary sim (S i) rest s_samples
      end
  end.

(** [for int_id, details in solver_detectors.items(): ...] *)
Fixpoint sample_intersections (sim : Sim) (detectors : dict SolverDetectors)
         (queue_samples : dict QueueSamples) : res (dict QueueSamples) :=
  match detectors with
  | [] => Ok queue_samples
  | (int_id, details) :: rest =>
      let! qs := dict_item int_id queue_samples in
      let! p_sample := get_sum_from_traci_detectors sim (sd_p details) in
      let! s' := sample_secondary sim 0 (sd_s details) (qs_s qs) in
      sample_intersections sim rest
        (PyDict.set int_id {| qs_p := qs_p qs ++ [p_sample]; qs_s := s' |}
                    queue_samples)
  end.

(** Step 1 of the loop body (main.py:317-331). *)
Definition step1_sampling (cfg : SimulationConfig) (sim : Sim) (current_time : float)
           (b : Buffers) (sched : Schedule) : res (Buffers * Schedule) :=
  if (next_sampling_time sched <=? current_time)%float then
    let! n := get_sum_from_traci_detectors sim (algorithm_detector_ids cfg) in
    let! queue_samples' :=
      sample_intersections sim (solver_detectors cfg) (queue_samples b) in
    Ok ({| n_samples := n_samples b ++ [n]; queue_samples := queue_samples' |},
        {| next_sampling_time := (next_sampling_time sched + sampling_interval_s cfg)%float;
           next_aggregation_time := next_aggregation_time sched;
           next_control_time := next_control_time sched;
           next_log_time := next_log_time sched |})
  else Ok (b, sched).

End Sampling.

(** Step 2 of the loop body (main.py:334-349).  The last component is the
    plotter's data ([time_data], [nk_data] of visualizer.py), extended by
    [update_plot]. *)
Definition step2_aggregation (cfg : SimulationConfig) (current_time : float)
           (b : Buffers) (m : Measurements) (sched : Schedule)
           (plot : list (float * float))
  : Buffers * Measurements * Schedule * list (float * float) :=
  if (next_aggregation_time sched <=? current_time)%float then
    let '(n', plot') :=
      match n_samples b with
      | [] => (latest_aggregated_n m, plot)
      | _ => let n' := mean (n_samples b) in (n', plot ++ [(current_time, n')])
      end in
    let queues' := aggregate_queues (queue_samples b) (latest_aggregated_queue_lengths m) in
    (clear_samples b,
     {| latest_aggregated_n := n'; latest_aggregated_queue_lengths := queues' |},
     {| next_sampling_time := next_sampling_time sched;
        next_aggregation_time := (next_aggregation_time sched + aggregation_interval_s cfg)%float;
        next_control_time := next_control_time sched;
        next_log_time := next_log_time sched |},
     plot')
  else (b, m, sched, plot).

(* ===================================================================== *)
(** ** The simulation loop *)
(* ===================================================================== *)

(** The variables of [run_sumo_simulation] that live across iterations,
    with the module-level [pending_logic_updates]. *)
Record LoopState (Sim Ctl : Type) : Type := mkLoopState {
  ls_sim : Sim;
  ls_pending : dict GreenTimes;
  ls_buffers : Buffers;
  ls_measurements : Measurements;
  ls_schedule : Schedule;
  ls_n_previous : float;
  ls_qg_previous : float;
  ls_controller : Ctl;
  ls_shared_dict : SharedDict;
  ls_plot : list (float * float)
}.

Arguments mkLoopState {Sim Ctl}.
Arguments ls_sim {Sim Ctl}.
Arguments ls_pending {Sim Ctl}.
Arguments ls_buffers {Sim Ctl}.
Arguments ls_measurements {Sim Ctl}.
Arguments ls_schedule {Sim Ctl}.
Arguments ls_n_previous {Sim Ctl}.
Arguments ls_qg_previous {Sim Ctl}.
Arguments ls_controller {Sim Ctl}.
Arguments ls_shared_dict {Sim Ctl}.
Arguments ls_plot {Sim Ctl}.

(** What step 3 reads and writes. *)
Record ControlState (Ctl : Type) : Type := mkControlState {
  cs_controller : Ctl;
  cs_shared_dict : SharedDict;
  cs_pending : dict GreenTimes;
  cs_n_previous : float;
  cs_qg_previous : float
}.

Arguments mkControlState {Ctl}.
Arguments cs_controller {Ctl}.
Arguments cs_shared_dict {Ctl}.
Arguments cs_pending {Ctl}.
Arguments cs_n_previous {Ctl}.
Arguments cs_qg_previous {Ctl}.

Section Control.
Context {Ctl : Type} {CT : Controller Ctl}.

(** Step 3 of the loop body (main.py:352-366). *)
Definition step3_control (cfg : SimulationConfig) (current_time : float)
           (m : Measurements) (c : ControlState Ctl) (sched : Schedule)
  : res (ControlState Ctl * Schedule) :=
  if (next_control_time sched <=? current_time)%float then
    let! result :=
      run_simulation_step (cs_controller c) (latest_aggregated_n m)
        (cs_n_previous c) (cs_qg_previous c)
        (latest_aggregated_queue_lengths m) (cs_shared_dict c) in
    let '(qg_new, controller', published) := result in
    let '(shared', pending') := prepare_logic_update published (cs_pending c) in
    Ok ({| cs_controller := controller';
           cs_shared_dict := shared';
           cs_pending := pending';
           cs_n_previous := latest_aggregated_n m;
           cs_qg_previous := qg_new |},
        {| next_sampling_time := next_sampling_time sched;
           next_aggregation_time := next_aggregation_time sched;
           next_control_time := (next_control_time sched + CONTROL_INTERVAL_S cfg)%float;
           next_log_time := next_log_time sched |})
  else Ok (c, sched).

End Control.

(** main.py:372-374 *)
Definition step_log (current_time : float) (sched : Schedule) : Schedule :=
  if (next_log_time sched <=? current_time)%float then
    {| next_sampling_time := next_sampling_time sched;
       next_aggregation_time := next_aggregation_time sched;
       next_control_time := next_control_time sched;
       next_log_time := (next_log_time sched + 10)%float |}
  else sched.

Section Loop.
Context {Sim : Type} {TR : Traci Sim} {Ctl : Type} {CT : Controller Ctl}.
Variable cfg : SimulationConfig.
Variable sim_step : float.

(** One iteration of the [while] loop (main.py:313-378), after its test.
    The boolean is [false] when the iteration ends in [break]. *)
Definition loop_body (st : LoopState Sim Ctl) : res (bool * LoopState Sim Ctl) :=
  let! sim1 := simulationStep (ls_sim st) in
  let! current_time := simulation_getTime sim1 in
  let! sampled := step1_sampling cfg sim1 current_time (ls_buffers st) (ls_schedule st) in
  let '(b1, sched1) := sampled in
  let '(b2, m2, sched2, plot2) :=
    step2_aggregation cfg current_time b1 (ls_measurements st) sched1 (ls_plot st) in
  let! controlled :=
    step3_control cfg current_time m2
      {| cs_controller := ls_controller st;
         cs_shared_dict := ls_shared_dict st;
         cs_pending := ls_pending st;
         cs_n_previous := ls_n_previous st;
         cs_qg_previous := ls_qg_previous st |} sched2 in
  let '(c3, sched3) := controlled in
  let! actuated :=
    apply_pending_updates_on_cycle_start (intersection_config_mgr cfg) sim_step
      (sim1, cs_pending c3) in
  let '(sim4, pending4) := actuated in
  let sched5 := step_log current_time sched3 in
  Ok (negb (total_simulation_time cfg <=? current_time)%float,
      {| ls_sim := sim4;
         ls_pending := pending4;
         ls_buffers := b2;
         ls_measurements := m2;
         ls_schedule := sched5;
         ls_n_previous := cs_n_previous c3;
         ls_qg_previous := cs_qg_previous c3;
         ls_controller := cs_controller c3;
         ls_shared_dict := cs_shared_dict c3;
         ls_plot := plot2 |}).

(** [while traci.simulation.getMinExpectedNumber() > 0: ...], for at most
    [fuel] iterations. *)
Fixpoint run_loop (fuel : nat) (st : LoopState Sim Ctl) : res (LoopState Sim Ctl) :=
  match fuel with
  | O => Ok st
  | S fuel' =>
      let! expected := simulation_getMinExpectedNumber (ls_sim st) in
      if 0 <? expected then
        let! r := loop_body st in
        if fst r then run_loop fuel' (snd r) else Ok (snd r)
      else Ok st
  end.

(** Exactly [n] iterations of the body, whatever the loop test says. *)
Fixpoint iterate_body (n : nat) (st : LoopState Sim Ctl) : res (LoopState Sim Ctl) :=
  match n with
  | O => Ok st
  | S n' =>
      let! r := loop_body st in
      iterate_body n' (snd r)
  end.

End Loop.

Section Init.
Context {Sim : Type} {TR : Traci Sim} {Ctl : Type}.

(** Part 3 of [run_sumo_simulation] (main.py:286-307): the step length
    read from the simulator and the state at the head of the loop.  The
    hand-off dictionary is the fresh [manager.dict()] and the store is the
    module-level [pending_logic_updates = {}]. *)
Definition initial_state (cfg : SimulationConfig) (sim0 : Sim) (controller : Ctl)
  : res (float * LoopState Sim Ctl) :=
  let! sim_step := simulation_getDeltaT sim0 in
  let! sim1 := simulationStep sim0 in
  let! n_previous := get_sum_from_traci_detectors sim1 (algorithm_detector_ids cfg) in
  Ok (sim_step,
      {| ls_sim := sim1;
         ls_pending := PyDict.empty;
         ls_buffers := {| n_samples := [];
                          queue_samples := initialize_queue_samples (solver_detectors cfg) |};
         ls_measurements := {| latest_aggregated_n := n_previous;
                               latest_aggregated_queue_lengths := PyDict.empty |};
         ls_schedule := {| next_sampling_time := 0;
                           next_aggregation_time := aggregation_interval_s cfg;
                           next_control_time := CONTROL_INTERVAL_S cfg;
                           next_log_time := 10 |};
         ls_n_previous := n_previous;
         ls_qg_previous := 0;
         ls_controller := controller;
         ls_shared_dict := {| is_active := None; green_times := None |};
         ls_plot := [] |}).

End Init.

(* ===================================================================== *)
(** ** A concrete simulator and controller for closed examples *)
(* ===================================================================== *)

Module MockSim.

(** One traffic light of the mock: its programs, the id of the running
    program, the running phase and the time of its next switch. *)
Record TL : Type := mkTL {
  tl_logics : list Logic;
  tl_program : string;
  tl_phase : Z;
  tl_next_switch : float
}.

Record t : Type := mk {
  time : float;
  delta_t : float;
  min_expected : Z;
  tls : dict TL;
  detectors : dict (res float)
}.

Definition unknown (kind id : string) : exn :=
  TraCIException (kind +:+ " '" +:+ id +:+ "' does not exist").

Definition tl_query {A : Type} (m : t) (tl_id : string) (f : TL -> A) : res A :=
  match PyDict.get tl_id (tls m) with
  | Some tl => Ok (f tl)
  | None => Raise (unknown "Traffic light" tl_id)
  end.

(** Replaces the program of the same id, or adds the program. *)
Fixpoint put_logic (logic : Logic) (logics : list Logic) : list Logic :=
  match logics with
  | [] => [logic]
  | l :: rest =>
      if String.eqb (programID l) (programID logic) then logic :: rest
      else l :: put_logic logic rest
  end.

Definition step (m : t) : res t :=
  Ok {| time := (time m + delta_t m)%float;
        delta_t := delta_t m;
        min_expected := min_expected m;
        tls := tls m;
        detectors := detectors m |}.

Definition occupancy (m : t) (det_id : string) : res float :=
  match PyDict.get det_id (detectors m) with
  | Some r => r
  | None => Raise (unknown "Lane area detector" det_id)
  end.

Definition set_logic (m : t) (tl_id : string) (logic : Logic) : res t :=
  match PyDict.get tl_id (tls m) with
  | Some tl =>
      Ok {| time := time m;
            delta_t := delta_t m;
            min_expected := min_expected m;
            tls := PyDict.set tl_id
                     {| tl_logics := put_logic logic (tl_logics tl);
                        tl_program := tl_program tl;
                        tl_phase := tl_phase tl;
                        tl_next_switch := tl_next_switch tl |} (tls m);
            detectors := detectors m |}
  | None => Raise (unknown "Traffic light" tl_id)
  end.

#[global] Instance traci : Traci t := {|
  simulationStep := step;
  simulation_getTime m := Ok (time m);
  simulation_getDeltaT m := Ok (delta_t m);
  simulation_getMinExpectedNumber m := Ok (min_expected m);
  lanearea_getLastIntervalOccupancy := occupancy;
  trafficlight_getAllProgramLogics m tl_id := tl_query m tl_id tl_logics;
  trafficlight_getProgram m tl_id := tl_query m tl_id tl_program;
  trafficlight_getPhase m tl_id := tl_query m tl_id tl_phase;
  trafficlight_getNextSwitch m tl_id := tl_query m tl_id tl_next_switch;
  trafficlight_getCompleteRedYellowGreenDefinition m tl_id := tl_query m tl_id tl_logics;
  trafficlight_setCompleteRedYellowGreenDefinition := set_logic
|}.

(** A scripted controller: each call publishes the next entry of its
    script (an empty entry publishes nothing) and hands the carried
    scalar back unchanged. *)
Definition script : Type := list (dict GreenTimes).

Definition scripted_step (c : script) (n n_previous qg_previous : float)
           (queues : dict QueueLengths) (shared : SharedDict)
  : res (float * script * SharedDict) :=
  match c with
  | [] => Ok (qg_previous, [], shared)
  | plans :: rest =>
      Ok (qg_previous, rest,
          if PyDict.is_empty plans then shared
          else {| is_active := Some true; green_times := Some plans |})
  end.

#[global] Instance controller : Controller script := {|
  run_simulation_step := scripted_step
|}.

End MockSim.

(* ===================================================================== *)
(** ** The rewritten program, phase by phase *)
(* ===================================================================== *)

(** The secondary duration that [update_secondary_phases s i secondary]
    leaves in phase [k]: that of the last position [j] (counted from [i])
    whose phase index is [k] and for which the plan has an entry. *)
Fixpoint secondary_duration (s : list float) (i : nat) (secondary : list Z) (k : Z)
  : option float :=
  match secondary with
  | [] => None
  | phase_index :: rest =>
      match secondary_duration s (S i) rest k with
      | Some d => Some d
      | None => if decide (phase_index = k) then s !! i else None
      end
  end.

(** The duration that a plan gives to phase [k], if any: a secondary
    duration when one is assigned to [k], otherwise the primary duration
    when [k] is listed as primary. *)
Definition planned_duration (new_times : GreenTimes) (phase_info : PhaseInfo) (k : Z)
  : option float :=
  match secondary_duration (gt_s new_times) 0 (secondary_phases phase_info) k with
  | Some d => Some d
  | None => if decide (k ∈ pi_p phase_info) then Some (gt_p new_times) else None
  end.

Definition replan (d : option float) (ph : Phase) : Phase :=
  match d with
  | Some d => with_duration d ph
  | None => ph
  end.

(** The measurements published for one intersection. *)
Definition queue_means (qs : QueueSamples) : QueueLengths :=
  {| ql_p := mean_or_zero (qs_p qs); ql_s := map mean_or_zero (qs_s qs) |}.

Section LoopStages.
Context {Sim : Type} {TR : Traci Sim}.

(** The head of [loop_body], up to the end of step 1: the simulator after
    the step, the current time, and the buffers and schedule that step 2
    receives. *)
Definition advance_and_sample (cfg : SimulationConfig) (sim : Sim) (b : Buffers)
           (sched : Schedule) : res (Sim * float * Buffers * Schedule) :=
  let! sim1 := simulationStep sim in
  let! current_time := simulation_getTime sim1 in
  let! sampled := step1_sampling cfg sim1 current_time b sched in
  Ok (sim1, current_time, fst sampled, snd sampled).

End LoopStages.

(** The buffers of one intersection at start-up: no primary sample, one
    empty buffer per secondary phase. *)
Definition empty_queue_samples (d : SolverDetectors) : QueueSamples :=
  {| qs_p := []; qs_s := replicate (length (sd_s d)) [] |}.

(* ===================================================================== *)
(** ** tools/generate_intersection_config.py: the phase layout *)
(* ===================================================================== *)

(** One phase read from the network file: [{'duration': ..., 'state': ...}]. *)
Record NetPhase : Type := mkNetPhase {
  np_duration : float;
  np_state : string
}.

(** An entry of ['phases']['p'] or of ['phases']['s']. *)
Record PhaseParams : Type := mkPhaseParams {
  phase_indices : list Z;
  saturation_flow : float;
  turn_in_ratio : float;
  queue_length : Z
}.

(** [('G' in phase['state'] or 'g' in phase['state'])
     and phase['duration'] > 5] (generate_intersection_config.py:107) *)
Definition is_long_green (phase : NetPhase) : bool :=
  (str_contains "G" (np_state phase) || str_contains "g" (np_state phase))
  && (5 <? np_duration phase)%float.

(** generate_intersection_config.py:109-114 and 125-130 *)
Definition primary_params (i : nat) : PhaseParams :=
  {| phase_indices := [Z.of_nat i]; saturation_flow := 0.5; turn_in_ratio := 0.5;
     queue_length := 20 |}.

(** generate_intersection_config.py:116-121 *)
Definition secondary_params (i : nat) : PhaseParams :=
  {| phase_indices := [Z.of_nat i]; saturation_flow := 0.5; turn_in_ratio := 0.5;
     queue_length := 10 |}.

(** [for i, phase in enumerate(phases_list): ...]
    (generate_intersection_config.py:105-121), started at position [i]. *)
Fixpoint assign_phases_loop (i : nat) (phases_list : list NetPhase)
         (p_phase : option PhaseParams) (s_phases : list PhaseParams)
  : option PhaseParams * list PhaseParams :=
  match phases_list with
  | [] => (p_phase, s_phases)
  | phase :: rest =>
      if is_long_green phase then
        match p_phase with
        | None => assign_phases_loop (S i) rest (Some (primary_params i)) s_phases
        | Some _ => assign_phases_loop (S i) rest p_phase (s_phases ++ [secondary_params i])
        end
      else assign_phases_loop (S i) rest p_phase s_phases
  end.

(** The ['phases'] entry of [intersection_data[tl_id]]
    (generate_intersection_config.py:101-137). *)
Definition assign_phases (phases_list : list NetPhase)
  : option PhaseParams * list PhaseParams :=
  let '(p_phase, s_phases) := assign_phases_loop 0 phases_list None [] in
  let p_phase :=
    match p_phase, phases_list with
    | None, _ :: _ => Some (primary_params 0)
    | _, _ => p_phase
    end in
  (p_phase, s_phases).

(** The layout as [update_traffic_light_logic] reads it:
    [phase_info['p']['phase_indices']] and the ['phase_indices'] of every
    entry of [phase_info['s']]. *)
Definition phase_info_of (p_phase : PhaseParams) (s_phases : list PhaseParams)
  : PhaseInfo :=
  {| pi_p := phase_indices p_phase; pi_s := map phase_indices s_phases |}.

(** The positions, from [i], of the phases that are green for more than
    5 s. *)
Fixpoint long_green_positions (i : nat) (phases_list : list NetPhase) : list nat :=
  match phases_list with
  | [] => []
  | phase :: rest =>
      if is_long_green phase then i :: long_green_positions (S i) rest
      else long_green_positions (S i) rest
  end.

(* ===================================================================== *)
(** ** tools/generate_detector_config.py: lanes and detectors *)
(* ===================================================================== *)

(** The character [_]. *)
Definition underscore : Ascii.ascii := Ascii.ascii_of_nat 95.

(** [s.split(sep)] for a separator of one character. *)
Fixpoint split_on (sep : Ascii.ascii) (s : string) : list string :=
  match s with
  | EmptyString => [EmptyString]
  | String c rest =>
      if Ascii.eqb c sep then EmptyString :: split_on sep rest
      else match split_on sep rest with
           | first :: others => String c first :: others
           | [] => [String c EmptyString]
           end
  end.

(** [sep.join(parts)] *)
Fixpoint join_with (sep : string) (parts : list string) : string :=
  match parts with
  | [] => EmptyString
  | [part] => part
  | part :: rest => part +:+ sep +:+ join_with sep rest
  end.

(** ["_".join(lane_id.split("_")[:-1])] (generate_detector_config.py:159-161) *)
Definition get_edge_from_lane (lane_id : string) : string :=
  join_with "_" (removelast (split_on underscore lane_id)).

(** [f"{from_edge}_{from_lane_idx}"] (generate_detector_config.py:126) *)
Definition lane_id_of (from_edge from_lane_idx : string) : string :=
  from_edge +:+ "_" +:+ from_lane_idx.

(** One detector element of the additional file: its [id] and its [lane]. *)
Definition DetectorElement : Type := string * string.

(** [if lane_id not in lane_to: lane_to[lane_id] = []
     lane_to[lane_id].append(det_id)]
    (generate_detector_config.py:52-54 and 61-63) *)
Definition add_detector (lane_to : dict (list string)) (detector : DetectorElement)
  : dict (list string) :=
  let det_id := fst detector in
  let lane_id := snd detector in
  let lane_to' :=
    if PyDict.mem lane_id lane_to then lane_to else PyDict.set lane_id [] lane_to in
  PyDict.set lane_id (default [] (PyDict.get lane_id lane_to') ++ [det_id]) lane_to'.

(** [parse_detectors] (generate_detector_config.py:30-65), on the
    [inductionLoop] and the [laneAreaDetector] elements of the file, in
    document order: [(lane_to_e1, lane_to_e2, all_e1, all_e2)]. *)
Definition parse_detectors (induction_loops lane_area_detectors : list DetectorElement)
  : dict (list string) * dict (list string) * list string * list string :=
  (fold_left add_detector induction_loops PyDict.empty,
   fold_left add_detector lane_area_detectors PyDict.empty,
   map fst induction_loops,
   map fst lane_area_detectors).

(** The entry of a lane that already has the entry [found] after the
    detectors [ids] are added to it. *)
Definition lane_entry (found : option (list string)) (ids : list string)
  : option (list string) :=
  match found, ids with
  | None, [] => None
  | _, _ => Some (default [] found ++ ids)
  end.

(* ===================================================================== *)
(** ** Example data *)
(* ===================================================================== *)

Module Examples.
Import MockSim.

(** A seven-phase program (last index 6). *)
Definition seven_phases : list Phase :=
  [ mkPhase 40 "GGrr" 40 40; mkPhase 3 "yyrr" 3 3; mkPhase 20 "rrGG" 20 20;
    mkPhase 3 "rryy" 3 3; mkPhase 15 "GrGr" 15 15; mkPhase 10 "rGrG" 10 10;
    mkPhase 3 "ryry" 3 3 ].

Definition program0 : Logic :=
  {| programID := "0"; logic_type := 0; currentPhaseIndex := 6; phases := seven_phases |}.

(** The traffic light of intersection X: in its last phase, one second
    before the switch. *)
Definition tl_X : TL :=
  {| tl_logics := [program0]; tl_program := "0"; tl_phase := 6; tl_next_switch := 3 |}.

(** The same light one phase earlier, as close to its switch. *)
Definition tl_X_early : TL :=
  {| tl_logics := [program0]; tl_program := "0"; tl_phase := 5; tl_next_switch := 3 |}.

Definition detectors0 : dict (res float) :=
  [ ("d1", Ok 50%float); ("d2", Ok 50%float);
    ("bad", Raise (TraCIException "connection lost"));
    ("q1", Ok 10%float); ("q2", Ok 20%float) ].

(** A simulator at t = 2 s with a one-second step. *)
Definition sim_at_2 : MockSim.t :=
  {| time := 2; delta_t := 1; min_expected := 5;
     tls := [("tl_X", tl_X); ("tl_Z", tl_X)]; detectors := detectors0 |}.

Definition sim_early : MockSim.t :=
  {| time := 2; delta_t := 1; min_expected := 5;
     tls := [("tl_X", tl_X_early)]; detectors := detectors0 |}.

(** The start of a run: t = 0 s, one-second steps. *)
Definition sim_start : MockSim.t :=
  {| time := 0; delta_t := 1; min_expected := 5;
     tls := [("tl_X", tl_X)]; detectors := detectors0 |}.

(** Primary index 2, one secondary group with index 5. *)
Definition phase_info_X : PhaseInfo := {| pi_p := [2]; pi_s := [[5]] |}.

(** An empty secondary group before the group of index 5. *)
Definition phase_info_gap : PhaseInfo := {| pi_p := [2]; pi_s := [[]; [5]] |}.

Definition plan_X : GreenTimes := {| gt_p := 30; gt_s := [12%float] |}.
Definition plan_two : GreenTimes := {| gt_p := 30; gt_s := [12%float; 20%float] |}.
Definition plan_old : GreenTimes := {| gt_p := 25; gt_s := [9%float] |}.

(** X and Z resolve to traffic lights of the simulator, Y to a light that
    the simulator does not know, W to no light at all. *)
Definition tl_of (int_id : string) : option string :=
  if String.eqb int_id "X" then Some "tl_X"
  else if String.eqb int_id "Y" then Some "tl_Y"
  else if String.eqb int_id "Z" then Some "tl_Z"
  else None.

Definition config_X : IntersectionConfigManager :=
  {| get_traffic_light_id := tl_of;
     get_phase_info := fun int_id =>
       if String.eqb int_id "W" then None else Some phase_info_X |}.

Definition config_no_phase_info : IntersectionConfigManager :=
  {| get_traffic_light_id := tl_of; get_phase_info := fun _ => None |}.

Definition config_gap : IntersectionConfigManager :=
  {| get_traffic_light_id := tl_of; get_phase_info := fun _ => Some phase_info_gap |}.

(** Sampling every 10 s, aggregation every 50 s. *)
Definition cfg_10_50 : SimulationConfig :=
  {| sampling_interval_s := 10; aggregation_interval_s := 50;
     total_simulation_time := 3600; CONTROL_INTERVAL_S := 90;
     algorithm_detector_ids := ["d1"; "d2"];
     solver_detectors := [("X", {| sd_p := ["q1"]; sd_s := [["q2"]] |})];
     intersection_config_mgr := config_X |}.

(** Sampling every 100 s, aggregation every 30 s. *)
Definition cfg_100_30 : SimulationConfig :=
  {| sampling_interval_s := 100; aggregation_interval_s := 30;
     total_simulation_time := 3600; CONTROL_INTERVAL_S := 90;
     algorithm_detector_ids := ["d1"; "d2"];
     solver_detectors := [("X", {| sd_p := ["q1"]; sd_s := [["q2"]] |})];
     intersection_config_mgr := config_X |}.

(** A control tick every 2 s, so that the first iteration (t = 2 s) runs
    the controller; no detectors. *)
Definition cfg_control_2 : SimulationConfig :=
  {| sampling_interval_s := 10; aggregation_interval_s := 50;
     total_simulation_time := 3600; CONTROL_INTERVAL_S := 2;
     algorithm_detector_ids := [];
     solver_detectors := [];
     intersection_config_mgr := config_X |}.

(** The state at the head of the loop for [cfg_control_2], the simulator
    started from [sim_start] and a controller that publishes [plan_X] for X
    at its first call. *)
Definition first_state : LoopState MockSim.t script :=
  {| ls_sim := {| time := 1; delta_t := 1; min_expected := 5;
                  tls := [("tl_X", tl_X)]; detectors := detectors0 |};
     ls_pending := [];
     ls_buffers := {| n_samples := []; queue_samples := [] |};
     ls_measurements := {| latest_aggregated_n := 0;
                           latest_aggregated_queue_lengths := [] |};
     ls_schedule := {| next_sampling_time := 0; next_aggregation_time := 50;
                       next_control_time := 2; next_log_time := 10 |};
     ls_n_previous := 0;
     ls_qg_previous := 0;
     ls_controller := [[("X", plan_X)]];
     ls_shared_dict := {| is_active := None; green_times := None |};
     ls_plot := [] |}.

(** [n] iterations of the loop body from the start of a run. *)
Definition run (cfg : SimulationConfig) (controller : script) (n : nat)
  : res (LoopState MockSim.t script) :=
  let! init := initial_state cfg sim_start controller in
  iterate_body cfg (fst init) n (snd init).

(** The durations of the first program of a traffic light. *)
Definition durations_of (m : MockSim.t) (tl_id : string) : list float :=
  match PyDict.get tl_id (tls m) with
  | Some tl =>
      match tl_logics tl with
      | l :: _ => map duration (phases l)
      | [] => []
      end
  | None => []
  end.

End Examples.

(** Further example data. *)
Module MoreExamples.
Import MockSim.

(** A simulator whose program definition cannot be read or written when
    [definition_fault] is set, on top of the mock. *)
Record Flaky : Type := mkFlaky {
  base : MockSim.t;
  definition_fault : option exn
}.

Definition flaky_step (f : Flaky) : res Flaky :=
  let! m := MockSim.step (base f) in
  Ok {| base := m; definition_fault := definition_fault f |}.

Definition flaky_definition (f : Flaky) (tl_id : string) : res (list Logic) :=
  match definition_fault f with
  | Some e => Raise e
  | None => MockSim.tl_query (base f) tl_id MockSim.tl_logics
  end.

Definition flaky_set_logic (f : Flaky) (tl_id : string) (logic : Logic) : res Flaky :=
  match definition_fault f with
  | Some e => Raise e
  | None =>
      let! m := MockSim.set_logic (base f) tl_id logic in
      Ok {| base := m; definition_fault := None |}
  end.

#[global] Instance flaky_traci : Traci Flaky := {|
  simulationStep := flaky_step;
  simulation_getTime f := Ok (MockSim.time (base f));
  simulation_getDeltaT f := Ok (MockSim.delta_t (base f));
  simulation_getMinExpectedNumber f := Ok (MockSim.min_expected (base f));
  lanearea_getLastIntervalOccupancy f := MockSim.occupancy (base f);
  trafficlight_getAllProgramLogics f tl_id := MockSim.tl_query (base f) tl_id MockSim.tl_logics;
  trafficlight_getProgram f tl_id := MockSim.tl_query (base f) tl_id MockSim.tl_program;
  trafficlight_getPhase f tl_id := MockSim.tl_query (base f) tl_id MockSim.tl_phase;
  trafficlight_getNextSwitch f tl_id :=
    MockSim.tl_query (base f) tl_id MockSim.tl_next_switch;
  trafficlight_getCompleteRedYellowGreenDefinition := flaky_definition;
  trafficlight_setCompleteRedYellowGreenDefinition := flaky_set_logic
|}.

(** The light of X at its cycle boundary; the definition cannot be read. *)
Definition sim_busy : Flaky :=
  {| base := Examples.sim_at_2;
     definition_fault := Some (TraCIException "command failed") |}.

(** The same, with the connection closed when the definition is read. *)
Definition sim_closing : Flaky :=
  {| base := Examples.sim_at_2;
     definition_fault := Some (FatalTraCIError "connection closed by SUMO") |}.










(** A detector whose query finds the connection closed. *)
Definition sim_lost_detector : MockSim.t :=
  {| time := 2; delta_t := 1; min_expected := 5; tls := [];
     detectors := [ ("d1", Ok 50%float);
                    ("gone", Raise (FatalTraCIError "connection closed by SUMO"));
                    ("d2", Ok 50%float) ] |}.


(** The phases of [Examples.seven_phases] as the network file gives them. *)
Definition net_phases : list NetPhase :=
  [ mkNetPhase 40 "GGrr"; mkNetPhase 3 "yyrr"; mkNetPhase 20 "rrGG";
    mkNetPhase 3 "rryy"; mkNetPhase 15 "GrGr"; mkNetPhase 10 "rGrG";
    mkNetPhase 3 "ryry" ].

(** The buffers at the head of the loop for [Examples.cfg_10_50]. *)
Definition start_buffers : Buffers :=
  {| n_samples := [];
     queue_samples := initialize_queue_samples (solver_detectors Examples.cfg_10_50) |}.

Definition start_schedule : Schedule :=
  {| next_sampling_time := 0; next_aggregation_time := 50;
     next_control_time := 90; next_log_time := 10 |}.

End MoreExamples.

(* ===================================================================== *)
(** * Properties *)
(* ===================================================================== *)

(** ** Dictionaries *)

Section DictLemmas.
Import PyDict.
Context {V : Type}.
Implicit Types (d o : dict V) (k : string) (v : V).

Lemma get_set_eq k v d : get k (set k v d) = Some v.
Proof.
  induction d as [|[k' v'] d IH]; simpl.
  - by rewrite decide_True.
  - destruct (decide (k = k')) as [->|Hne]; simpl.
    + by rewrite decide_True.
    + by rewrite decide_False.
Qed.

Lemma get_set_ne k k' v d : k ≠ k' → get k' (set k v d) = get k' d.
Proof.
  intros Hne. induction d as [|[k0 v0] d IH]; simpl.
  - by rewrite decide_False.
  - destruct (decide (k = k0)) as [->|Hne0]; simpl.
    + by rewrite !(decide_False (P := k' = k0)).
    + by rewrite IH.
Qed.

Lemma keys_set k v d :
  keys (set k v d) = if mem k d then keys d else keys d ++ [k].
Proof.
  unfold mem. induction d as [|[k0 v0] d IH]; simpl; first done.
  destruct (decide (k = k0)) as [->|Hne]; simpl; first done.
  rewrite IH. by destruct (get k d).
Qed.

Lemma get_None_keys k d : get k d = None ↔ k ∉ keys d.
Proof.
  induction d as [|[k0 v0] d IH]; simpl.
  - split; [intros _; apply not_elem_of_nil | done].
  - rewrite not_elem_of_cons. destruct (decide (k = k0)) as [->|Hne].
    + split; [done | intros [? _]; done].
    + rewrite IH. split; [by intros ?; split | by intros [_ ?]].
Qed.

Lemma NoDup_keys_set k v d : NoDup (keys d) → NoDup (keys (set k v d)).
Proof.
  intros Hd. rewrite keys_set. unfold mem.
  destruct (get k d) eqn:E; first done.
  apply NoDup_app. split_and!; [done| |apply NoDup_singleton].
  intros x Hx Hx'. apply list_elem_of_singleton in Hx' as ->.
  by apply get_None_keys in E.
Qed.

Lemma get_del_eq k d : get k (del k d) = None.
Proof.
  induction d as [|[k0 v0] d IH]; simpl; first done.
  destruct (decide (k = k0)) as [->|Hne]; simpl; first done.
  by rewrite decide_False.
Qed.

Lemma get_del_ne k k' d : k ≠ k' → get k' (del k d) = get k' d.
Proof.
  intros Hne. induction d as [|[k0 v0] d IH]; simpl; first done.
  destruct (decide (k = k0)) as [->|Hne0]; simpl.
  - by rewrite decide_False.
  - by rewrite IH.
Qed.

Lemma keys_del_sublist k d : sublist (keys (del k d)) (keys d).
Proof.
  induction d as [|[k0 v0] d IH]; simpl; first done.
  destruct (decide (k = k0)); simpl; [by apply sublist_cons | by apply sublist_skip].
Qed.

Lemma NoDup_keys_del k d : NoDup (keys d) → NoDup (keys (del k d)).
Proof. intros Hd. eapply sublist_NoDup; [exact Hd | apply keys_del_sublist]. Qed.

Lemma NoDup_keys_update d o : NoDup (keys d) → NoDup (keys (update d o)).
Proof.
  unfold update. revert d.
  induction o as [|[k v] o IH]; intros d Hd; simpl; first done.
  by apply IH, NoDup_keys_set.
Qed.

Lemma get_update k d o :
  NoDup (keys o) →
  get k (update d o) = match get k o with Some v => Some v | None => get k d end.
Proof.
  unfold update. revert d.
  induction o as [|[k0 v0] o IH]; intros d Ho; simpl; first done.
  apply NoDup_cons in Ho as [Hk0 Ho]. simpl in *.
  rewrite IH by done. destruct (decide (k = k0)) as [->|Hne].
  - apply get_None_keys in Hk0. by rewrite Hk0, get_set_eq.
  - by rewrite get_set_ne.
Qed.
End DictLemmas.

(** ** Rewriting a signal program *)

Lemma length_set_phase_duration idx d phs :
  length (set_phase_duration idx d phs) = length phs.
Proof.
  unfold set_phase_duration. destruct (phase_index_in_range idx phs); [|done].
  apply length_alter.
Qed.

Lemma phase_index_in_range_spec idx phs :
  phase_index_in_range idx phs = true ↔ 0 ≤ idx < Z.of_nat (length phs).
Proof. unfold phase_index_in_range. rewrite andb_true_iff, Z.leb_le, Z.ltb_lt. done. Qed.

Lemma lookup_set_phase_duration idx d phs (k : nat) :
  set_phase_duration idx d phs !! k
  = if decide (idx = Z.of_nat k) then with_duration d <$> phs !! k else phs !! k.
Proof.
  unfold set_phase_duration.
  destruct (phase_index_in_range idx phs) eqn:E.
  - apply phase_index_in_range_spec in E.
    destruct (decide (idx = Z.of_nat k)) as [->|Hne].
    + rewrite Nat2Z.id. apply list_lookup_alter_eq.
    + apply list_lookup_alter_ne. lia.
  - destruct (decide (idx = Z.of_nat k)) as [->|Hne]; [|done].
    assert (length phs ≤ k)%nat as Hk.
    { destruct (decide (length phs ≤ k)%nat); [done|].
      assert (phase_index_in_range (Z.of_nat k) phs = true); [|congruence].
      apply phase_index_in_range_spec. lia. }
    by rewrite (lookup_ge_None_2 _ _ Hk).
Qed.

Lemma lookup_update_main_phases main p phs (k : nat) :
  update_main_phases main p phs !! k
  = if decide (Z.of_nat k ∈ main) then with_duration p <$> phs !! k else phs !! k.
Proof.
  unfold update_main_phases. revert phs.
  induction main as [|idx main IH]; intros phs; cbn [fold_left].
  - destruct (decide (Z.of_nat k ∈ [])) as [Hin|]; [|done].
    by apply elem_of_nil in Hin.
  - rewrite IH, lookup_set_phase_duration.
    destruct (decide (Z.of_nat k ∈ idx :: main)) as [Hin|Hnin].
    + destruct (decide (idx = Z.of_nat k)) as [->|Hne].
      * destruct (decide (Z.of_nat k ∈ main)); by destruct (phs !! k).
      * apply elem_of_cons in Hin as [?|Hin]; [congruence|].
        destruct (decide (Z.of_nat k ∈ main)); done.
    + apply not_elem_of_cons in Hnin as [Hne Hnin].
      destruct (decide (idx = Z.of_nat k)); [congruence|].
      destruct (decide (Z.of_nat k ∈ main)); done.
Qed.

Lemma lookup_update_secondary_phases s i secondary phs (k : nat) :
  update_secondary_phases s i secondary phs !! k
  = replan (secondary_duration s i secondary (Z.of_nat k)) <$> phs !! k.
Proof.
  revert i phs. induction secondary as [|idx rest IH]; intros i phs; cbn [update_secondary_phases secondary_duration].
  - by destruct (phs !! k).
  - rewrite IH.
    destruct (secondary_duration s (S i) rest (Z.of_nat k)) as [d'|] eqn:E; simpl.
    + destruct (s !! i) as [d|]; [|done].
      rewrite lookup_set_phase_duration.
      destruct (decide (idx = Z.of_nat k)); [|done]. by destruct (phs !! k).
    + destruct (s !! i) as [d|].
      * rewrite lookup_set_phase_duration.
        destruct (decide (idx = Z.of_nat k)); by destruct (phs !! k).
      * destruct (decide (idx = Z.of_nat k)); by destruct (phs !! k).
Qed.

Lemma lookup_update_phases new_times phase_info phs (k : nat) :
  update_phases new_times phase_info phs !! k
  = replan (planned_duration new_times phase_info (Z.of_nat k)) <$> phs !! k.
Proof.
  unfold update_phases, planned_duration.
  rewrite lookup_update_secondary_phases, lookup_update_main_phases.
  destruct (secondary_duration _ _ _ _) as [d|]; simpl.
  - destruct (decide (Z.of_nat k ∈ pi_p phase_info)); by destruct (phs !! k).
  - destruct (decide (Z.of_nat k ∈ pi_p phase_info)); by destruct (phs !! k).
Qed.

Lemma length_update_phases new_times phase_info phs :
  length (update_phases new_times phase_info phs) = length phs.
Proof.
  unfold update_phases, update_main_phases.
  generalize (secondary_phases phase_info) 0%nat.
  generalize (pi_p phase_info). intros main sec i.
  transitivity (length (fold_left (λ acc phase_index, set_phase_duration phase_index (gt_p new_times) acc) main phs)).
  - generalize (fold_left (λ acc phase_index, set_phase_duration phase_index (gt_p new_times) acc) main phs).
    revert i. induction sec as [|idx sec IH]; intros i l; simpl; [done|].
    rewrite IH. destruct (gt_s new_times !! i); [apply length_set_phase_duration | done].
  - revert phs. induction main as [|idx main IH]; intros phs; simpl; [done|].
    rewrite IH. apply length_set_phase_duration.
Qed.

(** ** Detector sampler *)

Section SamplerProperties.
Context {Sim : Type} {TR : Traci Sim}.

Lemma sum_detectors_app (sim : Sim) pre post total :
  sum_detectors sim (pre ++ post) total
  = bind (sum_detectors sim pre total) (sum_detectors sim post).
Proof.
  revert total. induction pre as [|d pre IH]; intros total; simpl; [done|].
  destruct (lanearea_getLastIntervalOccupancy sim d); simpl; [apply IH | done].
Qed.

Lemma sum_detectors_ok (sim : Sim) ids occs total :
  Forall2 (fun d o => lanearea_getLastIntervalOccupancy sim d = Ok o) ids occs ->
  sum_detectors sim ids total
  = Ok (fold_left (fun t o => (t + accumulation o)%float) occs total).
Proof.
  intros Hall. revert total.
  induction Hall as [|d o ids occs Hd _ IH]; intros total; simpl; [done|].
  rewrite Hd. simpl. apply IH.
Qed.

(** C5.  The sampler returns 0 for the empty list.  It returns 0 for the
    whole call when a query raises a TraCI exception, whatever the readings
    of the detectors before it (which were read successfully) and whatever
    the detectors after it; the exception does not reach the caller. *)
Theorem sampler_zero_on_empty_or_traci_error
        (sim : Sim) (pre post : list string) (d : string) (msg : string)
        (occs : list float)
        (Hpre : Forall2 (fun d o => lanearea_getLastIntervalOccupancy sim d = Ok o) pre occs)
        (Hd : lanearea_getLastIntervalOccupancy sim d = Raise (TraCIException msg)) :
  get_sum_from_traci_detectors sim [] = Ok 0%float
  /\ get_sum_from_traci_detectors sim (pre ++ d :: post) = Ok 0%float.
Proof.
  split; [reflexivity|].
  unfold get_sum_from_traci_detectors.
  rewrite sum_detectors_app, (sum_detectors_ok _ _ _ _ Hpre).
  simpl. rewrite Hd. reflexivity.
Qed.

(** C9.  When every query succeeds, the sampler returns the sum, from 0 and
    in list order, of [80 * (1 / (100 * 3)) * occupancy] over the group.
    An occupancy of 50 gives 13.333333333333334 for one detector and
    26.666666666666668 for two. *)
Theorem sampler_sums_accumulations
        (sim : Sim) (ids : list string) (occs : list float)
        (Hall : Forall2 (fun d o => lanearea_getLastIntervalOccupancy sim d = Ok o) ids occs) :
  get_sum_from_traci_detectors sim ids
  = Ok (fold_left (fun t o => (t + 80 * (1 / (100 * 3)) * o)%float) occs 0%float)
  /\ (occs = [50%float] ->
      get_sum_from_traci_detectors sim ids = Ok 0x1.aaaaaaaaaaaabp+3%float)
  /\ (occs = [50%float; 50%float] ->
      get_sum_from_traci_detectors sim ids = Ok 0x1.aaaaaaaaaaaabp+4%float)
  /\ (13.33 <? 0x1.aaaaaaaaaaaabp+3)%float = true
  /\ (0x1.aaaaaaaaaaaabp+3 <? 13.34)%float = true
  /\ (26.66 <? 0x1.aaaaaaaaaaaabp+4)%float = true
  /\ (0x1.aaaaaaaaaaaabp+4 <? 26.67)%float = true.
Proof.
  assert (get_sum_from_traci_detectors sim ids
          = Ok (fold_left (fun t o => (t + accumulation o)%float) occs 0%float)) as Hsum.
  { unfold get_sum_from_traci_detectors.
    rewrite (sum_detectors_ok _ _ _ _ Hall). reflexivity. }
  split; [exact Hsum|].
  split; [intros ->; rewrite Hsum; reflexivity|].
  split; [intros ->; rewrite Hsum; reflexivity|].
  repeat split; reflexivity.
Qed.

End SamplerProperties.

Lemma sampler_zero_on_empty_or_traci_error_witness :
  get_sum_from_traci_detectors Examples.sim_at_2 [] = Ok 0%float
  /\ get_sum_from_traci_detectors Examples.sim_at_2 (["d1"] ++ "bad" :: ["d2"]) = Ok 0%float.
Proof.
  apply (sampler_zero_on_empty_or_traci_error (TR:=MockSim.traci)
           Examples.sim_at_2 ["d1"] ["d2"] "bad" "connection lost" [50%float]).
  - repeat constructor.
  - reflexivity.
Defined.

Lemma sampler_sums_accumulations_witness :
  get_sum_from_traci_detectors Examples.sim_at_2 ["d1"; "d2"]
  = Ok 0x1.aaaaaaaaaaaabp+4%float.
Proof.
  apply (sampler_sums_accumulations (TR:=MockSim.traci)
           Examples.sim_at_2 ["d1"; "d2"] [50%float; 50%float]).
  - repeat constructor.
  - reflexivity.
Defined.

(** ** Cycle-synchronised actuator *)

Lemma secondary_duration_None s i secondary k :
  secondary_duration s i secondary k = None
  <-> forall j, secondary !! j = Some k -> s !! (i + j)%nat = None.
Proof.
  revert i. induction secondary as [|idx rest IH]; intros i; simpl.
  - split; [intros _ j Hj; by rewrite lookup_nil in Hj | done].
  - destruct (secondary_duration s (S i) rest k) as [d|] eqn:E.
    + split; [done|]. intros Hall.
      assert (secondary_duration s (S i) rest k = None) as E'; [|congruence].
      apply IH. intros j Hj. specialize (Hall (S j) Hj).
      by replace (S i + j)%nat with (i + S j)%nat by lia.
    + pose proof (proj1 (IH (S i)) E) as Hrest.
      split.
      * intros Hhead [|j] Hj; simpl in Hj.
        -- inversion Hj; subst. rewrite decide_True in Hhead by done.
           by rewrite Nat.add_0_r.
        -- replace (i + S j)%nat with (S i + j)%nat by lia. by apply Hrest.
      * intros Hall. destruct (decide (idx = k)) as [->|]; [|done].
        specialize (Hall 0%nat eq_refl). by rewrite Nat.add_0_r in Hall.
Qed.

Lemma secondary_duration_last s i secondary k j d :
  secondary !! j = Some k ->
  s !! (i + j)%nat = Some d ->
  (forall j', (j < j')%nat -> secondary !! j' = Some k -> s !! (i + j')%nat = None) ->
  secondary_duration s i secondary k = Some d.
Proof.
  revert i j. induction secondary as [|idx rest IH]; intros i j Hj Hd Hlater.
  - by rewrite lookup_nil in Hj.
  - simpl. destruct j as [|j]; simpl in Hj.
    + inversion Hj; subst.
      assert (secondary_duration s (S i) rest k = None) as ->.
      { apply secondary_duration_None. intros j' Hj'.
        replace (S i + j')%nat with (i + S j')%nat by lia.
        apply Hlater; [lia | done]. }
      rewrite decide_True by done. by rewrite Nat.add_0_r in Hd.
    + rewrite (IH (S i) j Hj); [done | |].
      * by replace (S i + j)%nat with (i + S j)%nat by lia.
      * intros j' Hlt Hj'. replace (S i + j')%nat with (i + S j')%nat by lia.
        apply Hlater; [lia | done].
Qed.

Lemma dict_neq_del {V : Type} (k : string) (v : V) (d : dict V) :
  PyDict.get k d = Some v -> PyDict.del k d <> d.
Proof.
  intros Hget Heq. rewrite <- Heq, get_del_eq in Hget. discriminate.
Qed.

Section ActuatorProperties.
Context {Sim : Type} {TR : Traci Sim}.
Variable config_manager : IntersectionConfigManager.
Variable sim_step : float.

Lemma update_traffic_light_logic_not_traci (sim : Sim) tl_id new_times phase_info msg :
  update_traffic_light_logic sim tl_id new_times phase_info <> Raise (TraCIException msg).
Proof.
  unfold update_traffic_light_logic, try_except, bind.
  destruct (trafficlight_getCompleteRedYellowGreenDefinition sim tl_id) as [logics|e].
  - destruct (first_item logics) as [logic|e].
    + destruct (trafficlight_setCompleteRedYellowGreenDefinition _ _ _) as [?|e]; [done|].
      destruct e; simpl; done.
    + destruct e; simpl; done.
  - destruct e; simpl; done.
Qed.

Lemma update_traffic_light_logic_written (sim sim' : Sim) tl_id new_times phase_info logic rest :
  trafficlight_getCompleteRedYellowGreenDefinition sim tl_id = Ok (logic :: rest) ->
  trafficlight_setCompleteRedYellowGreenDefinition sim tl_id
    (update_logic new_times phase_info logic) = Ok sim' ->
  update_traffic_light_logic sim tl_id new_times phase_info = Ok sim'.
Proof.
  intros Hread Hwrite. unfold update_traffic_light_logic.
  rewrite Hread. simpl. rewrite Hwrite. reflexivity.
Qed.

Lemma apply_one_resolved (st : Sim * dict GreenTimes) int_id tl_id :
  get_traffic_light_id config_manager int_id = Some tl_id ->
  tl_id <> "" ->
  apply_one config_manager sim_step st int_id
  = try_except (check_and_apply config_manager sim_step int_id tl_id st)
               (on_exception int_id st).
Proof.
  intros Htl Hne. unfold apply_one. rewrite Htl.
  destruct (String.eqb tl_id "") eqn:E; [|done].
  by apply String.eqb_eq in E.
Qed.




(** The effect of one turn of the loop on an intersection whose traffic
    light resolves and whose cycle state can be read. *)
Lemma apply_one_cases (sim : Sim) pending int_id tl_id cs new_green_times :
  get_traffic_light_id config_manager int_id = Some tl_id ->
  tl_id <> "" ->
  read_cycle_state sim tl_id = Ok (Some cs) ->
  PyDict.get int_id pending = Some new_green_times ->
  apply_one config_manager sim_step (sim, pending) int_id
  = if trigger sim_step cs then
      match get_phase_info config_manager int_id with
      | Some phase_info =>
          match update_traffic_light_logic sim tl_id new_green_times phase_info with
          | Ok sim' => Ok (sim', PyDict.del int_id pending)
          | Raise _ => Ok (sim, pending)
          end
      | None => Ok (sim, pending)
      end
    else Ok (sim, pending).
Proof.
  intros Htl Hne Hcs Hplan.
  rewrite (apply_one_resolved _ _ _ Htl Hne).
  unfold check_and_apply. rewrite Hcs. simpl.
  destruct (trigger sim_step cs); [|done].
  unfold dict_item. rewrite Hplan. simpl.
  destruct (get_phase_info config_manager int_id) as [phase_info|]; [|done].
  destruct (update_traffic_light_logic sim tl_id new_green_times phase_info) as [sim'|e] eqn:E;
    simpl; [done|].
  destruct e as [msg| | |]; simpl; try done.
  by apply update_traffic_light_logic_not_traci in E.
Qed.

Lemma trigger_spec cs :
  trigger sim_step cs = true
  <-> current_phase_index cs = num_phases cs - 1
      /\ (time_to_next_switch cs <=? sim_step)%float = true.
Proof.
  unfold trigger, is_last_phase, is_about_to_reset.
  rewrite andb_true_iff, Z.eqb_eq. done.
Qed.

(** C1 (amended).  For an intersection with a pending plan whose traffic
    light resolves and whose cycle state is read: the trigger is exactly
    "current phase index = phase count - 1 and time to the next switch <=
    step".  Without the trigger nothing changes, in particular for every
    earlier phase index.  With the trigger and no PhaseInfo nothing changes.
    With the trigger and a PhaseInfo: when the program definition is read
    and written back without error, the plan is applied and consumed; when
    reading or writing it raises a TraCI exception, nothing is written and
    the plan is consumed all the same; when reading or writing it raises
    anything else, or the definition read is empty, nothing is written and
    the plan stays.  So the store or the simulator changes only if the
    trigger holds and the PhaseInfo is present; and with a PhaseInfo and a
    write-back that succeeds, the plan is applied and consumed if and only
    if the trigger holds. *)
Theorem actuator_trigger_condition
        (sim : Sim) (pending : dict GreenTimes) (int_id tl_id : string)
        (cs : CycleState) (new_green_times : GreenTimes)
        (Htl : get_traffic_light_id config_manager int_id = Some tl_id)
        (Hne : tl_id <> "")
        (Hcs : read_cycle_state sim tl_id = Ok (Some cs))
        (Hplan : PyDict.get int_id pending = Some new_green_times) :
  (trigger sim_step cs = true
   <-> current_phase_index cs = num_phases cs - 1
       /\ (time_to_next_switch cs <=? sim_step)%float = true)
  /\ (trigger sim_step cs = false ->
      apply_one config_manager sim_step (sim, pending) int_id = Ok (sim, pending))
  /\ (current_phase_index cs < num_phases cs - 1 ->
      apply_one config_manager sim_step (sim, pending) int_id = Ok (sim, pending))
  /\ (trigger sim_step cs = true ->
      get_phase_info config_manager int_id = None ->
      apply_one config_manager sim_step (sim, pending) int_id = Ok (sim, pending))
  /\ (forall phase_info,
        trigger sim_step cs = true ->
        get_phase_info config_manager int_id = Some phase_info ->
        (forall logic rest sim',
            trafficlight_getCompleteRedYellowGreenDefinition sim tl_id
            = Ok (logic :: rest) ->
            trafficlight_setCompleteRedYellowGreenDefinition sim tl_id
              (update_logic new_green_times phase_info logic) = Ok sim' ->
            apply_one config_manager sim_step (sim, pending) int_id
            = Ok (sim', PyDict.del int_id pending))
        /\ (forall msg,
              trafficlight_getCompleteRedYellowGreenDefinition sim tl_id
              = Raise (TraCIException msg)
              \/ (exists logic rest,
                    trafficlight_getCompleteRedYellowGreenDefinition sim tl_id
                    = Ok (logic :: rest)
                    /\ trafficlight_setCompleteRedYellowGreenDefinition sim tl_id
                         (update_logic new_green_times phase_info logic)
                       = Raise (TraCIException msg)) ->
              apply_one config_manager sim_step (sim, pending) int_id
              = Ok (sim, PyDict.del int_id pending))
        /\ (forall e,
              is_traci_exception e = false ->
              trafficlight_getCompleteRedYellowGreenDefinition sim tl_id = Raise e
              \/ (exists logic rest,
                    trafficlight_getCompleteRedYellowGreenDefinition sim tl_id
                    = Ok (logic :: rest)
                    /\ trafficlight_setCompleteRedYellowGreenDefinition sim tl_id
                         (update_logic new_green_times phase_info logic)
                       = Raise e) ->
              apply_one config_manager sim_step (sim, pending) int_id
              = Ok (sim, pending))
        /\ (trafficlight_getCompleteRedYellowGreenDefinition sim tl_id = Ok [] ->
            apply_one config_manager sim_step (sim, pending) int_id
            = Ok (sim, pending)))
  /\ (forall st',
        apply_one config_manager sim_step (sim, pending) int_id = Ok st' ->
        st' <> (sim, pending) ->
        trigger sim_step cs = true
        /\ exists phase_info sim',
             get_phase_info config_manager int_id = Some phase_info
             /\ update_traffic_light_logic sim tl_id new_green_times phase_info = Ok sim'
             /\ st' = (sim', PyDict.del int_id pending))
  /\ (forall phase_info sim',
        get_phase_info config_manager int_id = Some phase_info ->
        update_traffic_light_logic sim tl_id new_green_times phase_info = Ok sim' ->
        (apply_one config_manager sim_step (sim, pending) int_id
         = Ok (sim', PyDict.del int_id pending)
         <-> trigger sim_step cs = true)).
Proof.
  pose proof (apply_one_cases sim pending int_id tl_id cs new_green_times
                Htl Hne Hcs Hplan) as Hcases.
  split; [apply trigger_spec|].
  split; [intros Hno; by rewrite Hcases, Hno|].
  split.
  { intros Hearly. rewrite Hcases.
    destruct (trigger sim_step cs) eqn:E; [|done].
    apply trigger_spec in E as [E _]. lia. }
  split; [intros Hyes Hpi; by rewrite Hcases, Hyes, Hpi|].
  split.
  { intros phase_info Hyes Hpi. rewrite Hcases, Hyes, Hpi.
    unfold update_traffic_light_logic.
    split; [|split; [|split]].
    - intros logic rest sim' Hread Hwrite. rewrite Hread. simpl. by rewrite Hwrite.
    - intros msg [Hread|(logic & rest & Hread & Hwrite)]; rewrite Hread; simpl;
        [done | by rewrite Hwrite].
    - intros e He [Hread|(logic & rest & Hread & Hwrite)]; rewrite Hread; simpl;
        [|rewrite Hwrite; simpl]; by rewrite He.
    - intros Hread. by rewrite Hread. }
  split.
  { intros st' Hturn Hchanged. rewrite Hcases in Hturn.
    destruct (trigger sim_step cs); [|inversion Hturn; congruence].
    split; [done|].
    destruct (get_phase_info config_manager int_id) as [phase_info|];
      [|inversion Hturn; congruence].
    destruct (update_traffic_light_logic sim tl_id new_green_times phase_info)
      as [sim'|e] eqn:Hupd; [|inversion Hturn; congruence].
    inversion Hturn; subst. by exists phase_info, sim'. }
  intros phase_info sim' Hpi Hupd. rewrite Hcases, Hpi, Hupd.
  destruct (trigger sim_step cs); split; try done.
  intros Heq. inversion Heq as [[Hsim Hdel]].
  exfalso. apply (dict_neq_del _ _ _ Hplan). congruence.
Qed.

End ActuatorProperties.

(** C1 (as stated) fails: the light of X is in its last phase (6 of 7) and
    one step from its switch, yet with no PhaseInfo for X the pending plan
    is neither applied nor consumed.  With the PhaseInfo present and the
    same cycle state, a program definition that cannot be read for a TraCI
    error has the plan consumed with nothing written, and a connection
    closed at that moment leaves the plan in the store. *)
Lemma trigger_without_phase_info_keeps_plan :
  read_cycle_state Examples.sim_at_2 "tl_X"
  = Ok (Some {| current_phase_index := 6; num_phases := 7; time_to_next_switch := 1 |})
  /\ trigger 1 {| current_phase_index := 6; num_phases := 7; time_to_next_switch := 1 |} = true
  /\ apply_pending_updates_on_cycle_start Examples.config_no_phase_info 1
       (Examples.sim_at_2, [("X", Examples.plan_X)])
     = Ok (Examples.sim_at_2, [("X", Examples.plan_X)])
  /\ PyDict.mem "X" [("X", Examples.plan_X)] = true
  /\ read_cycle_state MoreExamples.sim_busy "tl_X"
     = Ok (Some {| current_phase_index := 6; num_phases := 7; time_to_next_switch := 1 |})
  /\ apply_pending_updates_on_cycle_start Examples.config_X 1
       (MoreExamples.sim_busy, [("X", Examples.plan_X)])
     = Ok (MoreExamples.sim_busy, [])
  /\ read_cycle_state MoreExamples.sim_closing "tl_X"
     = Ok (Some {| current_phase_index := 6; num_phases := 7; time_to_next_switch := 1 |})
  /\ apply_pending_updates_on_cycle_start Examples.config_X 1
       (MoreExamples.sim_closing, [("X", Examples.plan_X)])
     = Ok (MoreExamples.sim_closing, [("X", Examples.plan_X)]).
Proof. repeat split; reflexivity. Qed.

Lemma actuator_trigger_condition_witness :
  (exists sim',
      apply_one Examples.config_X 1 (Examples.sim_at_2, [("X", Examples.plan_X)]) "X"
      = Ok (sim', [])
      /\ Examples.durations_of Examples.sim_at_2 "tl_X" = [40; 3; 20; 3; 15; 10; 3]%float
      /\ Examples.durations_of sim' "tl_X" = [40; 3; 30; 3; 15; 12; 3]%float)
  /\ apply_one Examples.config_X 1 (Examples.sim_early, [("X", Examples.plan_X)]) "X"
     = Ok (Examples.sim_early, [("X", Examples.plan_X)]).
Proof.
  split.
  - destruct (MockSim.set_logic Examples.sim_at_2 "tl_X"
                (update_logic Examples.plan_X Examples.phase_info_X Examples.program0))
      as [sim'|] eqn:Hwrite; [|discriminate].
    exists sim'.
    destruct (actuator_trigger_condition (TR:=MockSim.traci) Examples.config_X 1
                Examples.sim_at_2 [("X", Examples.plan_X)] "X" "tl_X"
                {| current_phase_index := 6; num_phases := 7; time_to_next_switch := 1 |}
                Examples.plan_X eq_refl ltac:(discriminate) eq_refl eq_refl)
      as (_ & _ & _ & _ & Hyes & _).
    destruct (Hyes Examples.phase_info_X eq_refl eq_refl) as [Happlied _].
    split; [exact (Happlied Examples.program0 [] sim' eq_refl Hwrite)|].
    inversion Hwrite. split; reflexivity.
  - destruct (actuator_trigger_condition (TR:=MockSim.traci) Examples.config_X 1
                Examples.sim_early [("X", Examples.plan_X)] "X" "tl_X"
                {| current_phase_index := 5; num_phases := 7; time_to_next_switch := 1 |}
                Examples.plan_X eq_refl ltac:(discriminate) eq_refl eq_refl)
      as (_ & _ & Hearly & _).
    apply Hearly. simpl. lia.
Defined.

Section PlanApplication.
Context {Sim : Type} {TR : Traci Sim}.
Variable config_manager : IntersectionConfigManager.
Variable sim_step : float.

(** C2 (amended).  When the trigger fires for an intersection with a
    PhaseInfo, the program read from the simulator is rewritten and written
    back in one call, and the entry of the intersection leaves the store
    while every other entry stays.  In the program written back, the
    secondary positions are those of the groups with a non-empty index
    list, each standing for its first index: the phase at the index of
    position [j] takes the [j]-th secondary duration of the plan, when the
    plan has one and no later position with a duration names the same
    phase; a phase listed as primary and given no secondary duration takes
    the primary duration; every other phase is kept as it was; the phase
    count and the program's other fields are unchanged. *)
Theorem plan_application
        (sim sim' : Sim) (pending : dict GreenTimes) (int_id tl_id : string)
        (cs : CycleState) (new_green_times : GreenTimes) (phase_info : PhaseInfo)
        (logic : Logic) (rest : list Logic)
        (Htl : get_traffic_light_id config_manager int_id = Some tl_id)
        (Hne : tl_id <> "")
        (Hcs : read_cycle_state sim tl_id = Ok (Some cs))
        (Htrigger : trigger sim_step cs = true)
        (Hplan : PyDict.get int_id pending = Some new_green_times)
        (Hpi : get_phase_info config_manager int_id = Some phase_info)
        (Hread : trafficlight_getCompleteRedYellowGreenDefinition sim tl_id
                 = Ok (logic :: rest))
        (Hwrite : trafficlight_setCompleteRedYellowGreenDefinition sim tl_id
                    (update_logic new_green_times phase_info logic) = Ok sim') :
  let written := update_logic new_green_times phase_info logic in
  apply_one config_manager sim_step (sim, pending) int_id
  = Ok (sim', PyDict.del int_id pending)
  /\ (forall (j k : nat) (d : float) (ph : Phase),
        secondary_phases phase_info !! j = Some (Z.of_nat k) ->
        gt_s new_green_times !! j = Some d ->
        (forall j', (j < j')%nat ->
                    secondary_phases phase_info !! j' = Some (Z.of_nat k) ->
                    gt_s new_green_times !! j' = None) ->
        phases logic !! k = Some ph ->
        phases written !! k = Some (with_duration d ph))
  /\ (forall (k : nat) (ph : Phase),
        Z.of_nat k ∈ pi_p phase_info ->
        (forall j, secondary_phases phase_info !! j = Some (Z.of_nat k) ->
                   gt_s new_green_times !! j = None) ->
        phases logic !! k = Some ph ->
        phases written !! k = Some (with_duration (gt_p new_green_times) ph))
  /\ (forall (k : nat) (ph : Phase),
        Z.of_nat k ∉ pi_p phase_info ->
        (forall j, secondary_phases phase_info !! j = Some (Z.of_nat k) ->
                   gt_s new_green_times !! j = None) ->
        phases logic !! k = Some ph ->
        phases written !! k = Some ph)
  /\ length (phases written) = length (phases logic)
  /\ programID written = programID logic
  /\ PyDict.get int_id (PyDict.del int_id pending) = None
  /\ (forall other, other <> int_id ->
        PyDict.get other (PyDict.del int_id pending) = PyDict.get other pending).
Proof.
  intros written.
  split.
  { rewrite (apply_one_cases config_manager sim_step sim pending int_id tl_id cs
               new_green_times Htl Hne Hcs Hplan), Htrigger, Hpi.
    by rewrite (update_traffic_light_logic_written _ _ _ _ _ _ _ Hread Hwrite). }
  split.
  { intros j k d ph Hj Hd Hlater Hph. unfold written. simpl.
    rewrite lookup_update_phases, Hph. unfold planned_duration.
    by rewrite (secondary_duration_last _ 0 _ _ j d Hj Hd Hlater). }
  split.
  { intros k ph Hin Hnone Hph. unfold written. simpl.
    rewrite lookup_update_phases, Hph. unfold planned_duration.
    rewrite (proj2 (secondary_duration_None _ 0 _ _) Hnone).
    by rewrite decide_True. }
  split.
  { intros k ph Hnin Hnone Hph. unfold written. simpl.
    rewrite lookup_update_phases, Hph. unfold planned_duration.
    rewrite (proj2 (secondary_duration_None _ 0 _ _) Hnone).
    by rewrite decide_False. }
  split; [apply length_update_phases|].
  split; [reflexivity|].
  split; [apply get_del_eq|].
  intros other Hother. apply get_del_ne. congruence.
Qed.

End PlanApplication.

(** C2 (as stated) fails: with the groups [[]; [5]] the group of index 5 is
    the second group, and the plan's second secondary duration is 20; the
    program written back gives phase 5 the first one, 12. *)
Lemma empty_group_shifts_secondary_durations :
  pi_s Examples.phase_info_gap !! 1%nat = Some [5]
  /\ gt_s Examples.plan_two !! 1%nat = Some 20%float
  /\ match apply_pending_updates_on_cycle_start Examples.config_gap 1
             (Examples.sim_at_2, [("X", Examples.plan_two)]) with
     | Ok (sim', pending') =>
         Examples.durations_of sim' "tl_X" !! 5%nat = Some 12%float
         /\ pending' = []
     | Raise _ => False
     end.
Proof. repeat split; reflexivity. Qed.

Lemma plan_application_witness :
  exists sim',
    apply_one Examples.config_X 1 (Examples.sim_at_2, [("X", Examples.plan_X)]) "X"
    = Ok (sim', [])
    /\ Examples.durations_of sim' "tl_X" = [40; 3; 30; 3; 15; 12; 3]%float
    /\ Examples.durations_of Examples.sim_at_2 "tl_X" = [40; 3; 20; 3; 15; 10; 3]%float.
Proof.
  destruct (MockSim.set_logic Examples.sim_at_2 "tl_X"
              (update_logic Examples.plan_X Examples.phase_info_X Examples.program0))
    as [sim'|] eqn:Hwrite; [|discriminate].
  exists sim'.
  destruct (plan_application (TR:=MockSim.traci) Examples.config_X 1 Examples.sim_at_2 sim'
              [("X", Examples.plan_X)] "X" "tl_X"
              {| current_phase_index := 6; num_phases := 7; time_to_next_switch := 1 |}
              Examples.plan_X Examples.phase_info_X Examples.program0 []
              eq_refl ltac:(discriminate) eq_refl eq_refl eq_refl eq_refl eq_refl Hwrite)
    as [Happly _].
  split; [exact Happly|].
  inversion Hwrite. split; reflexivity.
Defined.

(** ** Out-of-range phase indices *)










Section OutOfRange.
Context {Sim : Type} {TR : Traci Sim}.


End OutOfRange.


(** ** Pending plan store *)

Section LastWriterWins.
Context {Sim : Type} {TR : Traci Sim}.

(** C3.  The store keeps one entry per intersection.  When a plan [p1] for
    an intersection is drained into the store and, before it is consumed, a
    plan [p2] for the same intersection is drained, the store holds [p2]
    for it, and [p2] is what the actuator hands to the rewrite when the
    trigger fires.  Each drain removes the plans from the hand-off
    dictionary, and draining again changes nothing. *)
Theorem last_writer_wins
        (pending plans1 plans2 : dict GreenTimes) (shared1 shared2 : SharedDict)
        (int_id : string) (p1 p2 : GreenTimes)
        (Hpending : NoDup (PyDict.keys pending))
        (Hactive1 : shared_is_active shared1 = true)
        (Hplans1 : green_times shared1 = Some plans1)
        (Hnodup1 : NoDup (PyDict.keys plans1))
        (Hp1 : PyDict.get int_id plans1 = Some p1)
        (Hactive2 : shared_is_active shared2 = true)
        (Hplans2 : green_times shared2 = Some plans2)
        (Hnodup2 : NoDup (PyDict.keys plans2))
        (Hp2 : PyDict.get int_id plans2 = Some p2) :
  let drained1 := prepare_logic_update shared1 pending in
  let drained2 := prepare_logic_update shared2 (snd drained1) in
  PyDict.get int_id (snd drained1) = Some p1
  /\ PyDict.get int_id (snd drained2) = Some p2
  /\ NoDup (PyDict.keys (snd drained1))
  /\ NoDup (PyDict.keys (snd drained2))
  /\ green_times (fst drained1) = None
  /\ green_times (fst drained2) = None
  /\ prepare_logic_update (fst drained1) (snd drained1) = drained1
  /\ prepare_logic_update (fst drained2) (snd drained2) = drained2
  /\ (forall config_manager sim_step (sim : Sim) tl_id cs,
        get_traffic_light_id config_manager int_id = Some tl_id ->
        tl_id <> "" ->
        read_cycle_state sim tl_id = Ok (Some cs) ->
        trigger sim_step cs = true ->
        apply_one config_manager sim_step (sim, snd drained2) int_id
        = match get_phase_info config_manager int_id with
          | Some phase_info =>
              match update_traffic_light_logic sim tl_id p2 phase_info with
              | Ok sim' => Ok (sim', PyDict.del int_id (snd drained2))
              | Raise _ => Ok (sim, snd drained2)
              end
          | None => Ok (sim, snd drained2)
          end).
Proof.
  assert (forall shared plans (p : GreenTimes) store,
            shared_is_active shared = true ->
            green_times shared = Some plans ->
            PyDict.get int_id plans = Some p ->
            prepare_logic_update shared store
            = ({| is_active := is_active shared; green_times := None |},
               PyDict.update store plans)) as Hdrain.
  { intros shared plans p store Hactive Hplans Hp.
    unfold prepare_logic_update. rewrite Hactive, Hplans.
    destruct plans; [discriminate | done]. }
  assert (forall shared store,
            green_times shared = None ->
            prepare_logic_update shared store = (shared, store)) as Hagain.
  { intros shared store Hnone. unfold prepare_logic_update.
    rewrite Hnone. by destruct (shared_is_active shared). }
  intros drained1 drained2. unfold drained2, drained1.
  rewrite (Hdrain _ _ _ _ Hactive1 Hplans1 Hp1). simpl.
  rewrite (Hdrain _ _ _ _ Hactive2 Hplans2 Hp2). simpl.
  assert (PyDict.get int_id (PyDict.update (PyDict.update pending plans1) plans2)
          = Some p2) as Hget2.
  { rewrite get_update by done. by rewrite Hp2. }
  split; [rewrite get_update by done; by rewrite Hp1|].
  split; [exact Hget2|].
  split; [by apply NoDup_keys_update|].
  split; [by apply NoDup_keys_update, NoDup_keys_update|].
  split; [done|]. split; [done|].
  split; [by apply Hagain|]. split; [by apply Hagain|].
  intros config_manager sim_step sim tl_id cs Htl Hne Hcs Htrigger.
  by rewrite (apply_one_cases config_manager sim_step sim _ int_id tl_id cs p2
                Htl Hne Hcs Hget2), Htrigger.
Qed.

End LastWriterWins.

Lemma last_writer_wins_witness :
  PyDict.get "X"
    (snd (prepare_logic_update
            {| is_active := Some true; green_times := Some [("X", Examples.plan_X)] |}
            (snd (prepare_logic_update
                    {| is_active := Some true;
                       green_times := Some [("X", Examples.plan_old)] |}
                    [("Z", Examples.plan_old)]))))
  = Some Examples.plan_X.
Proof.
  destruct (last_writer_wins (TR:=MockSim.traci)
              [("Z", Examples.plan_old)] [("X", Examples.plan_old)] [("X", Examples.plan_X)]
              {| is_active := Some true; green_times := Some [("X", Examples.plan_old)] |}
              {| is_active := Some true; green_times := Some [("X", Examples.plan_X)] |}
              "X" Examples.plan_old Examples.plan_X
              (NoDup_singleton "Z") eq_refl eq_refl
              (NoDup_singleton "X") eq_refl eq_refl eq_refl
              (NoDup_singleton "X") eq_refl)
    as (_ & H2 & _).
  exact H2.
Defined.

(** ** Aggregation *)

Lemma get_map_values {A B : Type} (f : A -> B) (k : string) (d : dict A) :
  PyDict.get k (map (fun kv => (fst kv, f (snd kv))) d) = f <$> PyDict.get k d.
Proof.
  induction d as [|[k0 v0] d IH]; simpl; [done|].
  destruct (decide (k = k0)); [done | apply IH].
Qed.

Lemma keys_map_values {A B : Type} (f : A -> B) (d : dict A) :
  PyDict.keys (map (fun kv => (fst kv, f (snd kv))) d) = PyDict.keys d.
Proof.
  unfold PyDict.keys. induction d as [|[k0 v0] d IH]; simpl; [done|]. by rewrite IH.
Qed.

Lemma aggregate_queues_update queue_samples latest :
  aggregate_queues queue_samples latest
  = PyDict.update latest (map (fun kv => (fst kv, queue_means (snd kv))) queue_samples).
Proof.
  unfold aggregate_queues, PyDict.update. revert latest.
  induction queue_samples as [|[k qs] rest IH]; intros latest; simpl; [done|].
  apply IH.
Qed.

Lemma get_aggregate_queues k queue_samples latest :
  NoDup (PyDict.keys queue_samples) ->
  PyDict.get k (aggregate_queues queue_samples latest)
  = match PyDict.get k queue_samples with
    | Some qs => Some (queue_means qs)
    | None => PyDict.get k latest
    end.
Proof.
  intros Hnodup. rewrite aggregate_queues_update, get_update.
  - rewrite get_map_values. by destruct (PyDict.get k queue_samples).
  - by rewrite keys_map_values.
Qed.

(** The keys of the sample buffers stay unique: at start-up, through a
    sampling and through a clearing. *)
Lemma NoDup_keys_initialize_queue_samples solver_detectors :
  NoDup (PyDict.keys (initialize_queue_samples solver_detectors)).
Proof.
  unfold initialize_queue_samples.
  assert (NoDup (PyDict.keys (@PyDict.empty QueueSamples))) as Hempty
    by apply NoDup_nil_2.
  revert Hempty. generalize (@PyDict.empty QueueSamples).
  induction solver_detectors as [|[k d] rest IH]; intros acc Hacc; simpl; [done|].
  by apply IH, NoDup_keys_set.
Qed.

Lemma NoDup_keys_sample_intersections {Sim : Type} {TR : Traci Sim}
      (sim : Sim) detectors queue_samples queue_samples' :
  NoDup (PyDict.keys queue_samples) ->
  sample_intersections sim detectors queue_samples = Ok queue_samples' ->
  NoDup (PyDict.keys queue_samples').
Proof.
  revert queue_samples.
  induction detectors as [|[k d] rest IH]; intros queue_samples Hkeys Hrun; simpl in Hrun.
  - by inversion Hrun; subst.
  - destruct (dict_item k queue_samples) as [qs|]; [|discriminate]. simpl in Hrun.
    destruct (get_sum_from_traci_detectors sim (sd_p d)) as [p|]; [|discriminate].
    simpl in Hrun.
    destruct (sample_secondary sim 0 (sd_s d) (qs_s qs)) as [s'|]; [|discriminate].
    simpl in Hrun. eapply IH; [|exact Hrun]. by apply NoDup_keys_set.
Qed.

Lemma keys_clear_samples b :
  PyDict.keys (queue_samples (clear_samples b)) = PyDict.keys (queue_samples b).
Proof. apply (keys_map_values clear_queue_samples). Qed.

(** C6 (amended).  When the aggregation fires: the network-wide
    measurement becomes the mean of its buffer when the buffer is not empty
    and keeps its previous value when it is empty; for every intersection
    the primary measurement and each secondary measurement become the mean
    of their buffer, 0 for an empty buffer; the mean of [a; b; c] is the sum
    taken from 0, left to right, divided by 3; after the event the
    network-wide buffer and every primary and secondary buffer of every
    intersection are empty, and the buffers are the same in number. *)
Theorem aggregation_event
        (cfg : SimulationConfig) (current_time : float) (b : Buffers)
        (m : Measurements) (sched : Schedule) (plot : list (float * float))
        (Hfire : (next_aggregation_time sched <=? current_time)%float = true)
        (Hkeys : NoDup (PyDict.keys (queue_samples b))) :
  let '(b', m', sched', _) := step2_aggregation cfg current_time b m sched plot in
  (n_samples b <> [] -> latest_aggregated_n m' = mean (n_samples b))
  /\ (n_samples b = [] -> latest_aggregated_n m' = latest_aggregated_n m)
  /\ (forall int_id qs,
        PyDict.get int_id (queue_samples b) = Some qs ->
        PyDict.get int_id (latest_aggregated_queue_lengths m')
        = Some {| ql_p := mean_or_zero (qs_p qs);
                  ql_s := map mean_or_zero (qs_s qs) |})
  /\ (forall x y z, mean [x; y; z] = ((0 + x + y + z) / 3)%float)
  /\ mean_or_zero [] = 0%float
  /\ n_samples b' = []
  /\ (forall int_id qs',
        PyDict.get int_id (queue_samples b') = Some qs' ->
        qs_p qs' = [] /\ Forall (fun buffer => buffer = []) (qs_s qs'))
  /\ PyDict.keys (queue_samples b') = PyDict.keys (queue_samples b)
  /\ (forall int_id qs,
        PyDict.get int_id (queue_samples b) = Some qs ->
        exists qs', PyDict.get int_id (queue_samples b') = Some qs'
                    /\ length (qs_s qs') = length (qs_s qs))
  /\ next_aggregation_time sched'
     = (next_aggregation_time sched + aggregation_interval_s cfg)%float.
Proof.
  unfold step2_aggregation. rewrite Hfire.
  destruct (n_samples b) as [|x xs] eqn:En; simpl.
  all: split; [done|]; split; [done|].
  all: split;
    [intros int_id qs Hqs; rewrite get_aggregate_queues by done; by rewrite Hqs|].
  all: split; [reflexivity|]; split; [reflexivity|]; split; [reflexivity|].
  all: split;
    [intros int_id qs' Hqs'; unfold clear_samples in Hqs'; simpl in Hqs';
     rewrite (get_map_values clear_queue_samples) in Hqs';
     destruct (PyDict.get int_id (queue_samples b)) as [qs|]; [|discriminate];
     inversion Hqs'; subst; split; [reflexivity|];
     simpl; apply Forall_map, Forall_true; done|].
  all: split; [apply (keys_map_values clear_queue_samples)|].
  all: split; [|reflexivity].
  all: intros int_id qs Hqs; exists (clear_queue_samples qs);
    (split; [by rewrite (get_map_values clear_queue_samples), Hqs
            | simpl; apply length_map]).
Qed.

(** C6 (as stated) fails for the network-wide buffer.  Sampling every 100 s
    and aggregating every 30 s: after 58 iterations (t = 59 s) the buffer is
    empty and the next aggregation is due at 60 s; the iteration at 60 s
    runs the aggregation (the next one is then due at 90 s) and does not
    sample, and the network-wide measurement is still the mean published at
    30 s, not 0. *)
Lemma empty_network_buffer_keeps_previous_mean :
  match Examples.run Examples.cfg_100_30 [] 58 with
  | Ok before =>
      n_samples (ls_buffers before) = []
      /\ next_aggregation_time (ls_schedule before) = 60%float
      /\ next_sampling_time (ls_schedule before) = 100%float
      /\ match loop_body Examples.cfg_100_30 1 before with
         | Ok (_, after) =>
             MockSim.time (ls_sim after) = 60%float
             /\ next_aggregation_time (ls_schedule after) = 90%float
             /\ latest_aggregated_n (ls_measurements after) = 0x1.aaaaaaaaaaaabp+4%float
             /\ (latest_aggregated_n (ls_measurements after) =? 0)%float = false
         | Raise _ => False
         end
  | Raise _ => False
  end.
Proof. vm_compute. repeat split; reflexivity. Qed.

Lemma aggregation_event_witness :
  let b := {| n_samples := [3; 4; 8]%float;
              queue_samples := [("X", {| qs_p := [1; 2]%float; qs_s := [[]; [6%float]] |})] |} in
  let m := {| latest_aggregated_n := 7; latest_aggregated_queue_lengths := [] |} in
  let sched := {| next_sampling_time := 60; next_aggregation_time := 50;
                  next_control_time := 90; next_log_time := 60 |} in
  let r := step2_aggregation Examples.cfg_10_50 50 b m sched [] in
  latest_aggregated_n (snd (fst (fst r))) = 5%float
  /\ PyDict.get "X" (latest_aggregated_queue_lengths (snd (fst (fst r))))
     = Some {| ql_p := 1.5; ql_s := [0; 6]%float |}
  /\ n_samples (fst (fst (fst r))) = []
  /\ next_aggregation_time (snd (fst r)) = 100%float.
Proof.
  intros b m sched r.
  pose proof (aggregation_event Examples.cfg_10_50 50 b m sched []
                eq_refl (NoDup_singleton "X")) as Hevent.
  fold r in Hevent.
  destruct r as [[[b' m'] sched'] plot'].
  destruct Hevent as (Hmean & _ & Hqueue & _ & _ & Hempty & _ & _ & _ & Hnext).
  simpl. split; [rewrite Hmean; [reflexivity | discriminate]|].
  split; [rewrite (Hqueue "X" _ eq_refl); reflexivity|].
  split; [exact Hempty | rewrite Hnext; reflexivity].
Defined.

(** ** The loop: order of the steps and schedule *)

Section LoopProperties.
Context {Sim : Type} {TR : Traci Sim} {Ctl : Type} {CT : Controller Ctl}.
Variable cfg : SimulationConfig.
Variable sim_step : float.


End LoopProperties.



(** C8 (as stated) fails.  Sampling every 10 s and aggregating every 50 s,
    with one-second steps: after 48 iterations (t = 49 s) the network-wide
    buffer holds 5 samples and both the next sampling and the next
    aggregation are due at 50 s; in the iteration at 50 s the sampler runs
    first, so the aggregation fires on 6 samples. *)
Lemma six_samples_at_first_aggregation :
  match Examples.run Examples.cfg_10_50 [] 48 with
  | Ok before =>
      length (n_samples (ls_buffers before)) = 5%nat
      /\ match advance_and_sample Examples.cfg_10_50 (ls_sim before)
                 (ls_buffers before) (ls_schedule before) with
         | Ok (_, current_time, b1, sched1) =>
             current_time = 50%float
             /\ (next_aggregation_time sched1 <=? current_time)%float = true
             /\ length (n_samples b1) = 6%nat
         | Raise _ => False
         end
  | Raise _ => False
  end.
Proof. vm_compute. repeat split; reflexivity. Qed.

(** C8 (amended).  Whenever a sampling fires, the next sampling time is the
    previous one plus the sampling interval and the network-wide buffer is
    one sample longer; otherwise buffers and schedule are unchanged.
    Whenever an aggregation fires, the next aggregation time is the
    previous one plus the aggregation interval and the network-wide buffer
    is empty; otherwise buffers and schedule are unchanged.  With intervals
    of 10 s and 50 s and one-second steps, the first aggregation, at 50 s,
    fires on 6 samples (those of the first iteration and of 10, 20, 30, 40
    and 50 s) and the second, at 100 s, on 5; every buffer is empty at the
    end of both iterations. *)
Theorem sampling_and_aggregation_schedule :
  (forall (Sim : Type) (TR : Traci Sim) (cfg : SimulationConfig) (sim : Sim)
          (current_time : float) (b : Buffers) (sched : Schedule),
      match step1_sampling cfg sim current_time b sched with
      | Ok (b', sched') =>
          if (next_sampling_time sched <=? current_time)%float
          then next_sampling_time sched'
               = (next_sampling_time sched + sampling_interval_s cfg)%float
               /\ next_aggregation_time sched' = next_aggregation_time sched
               /\ length (n_samples b') = S (length (n_samples b))
          else b' = b /\ sched' = sched
      | Raise _ => True
      end)
  /\ (forall (cfg : SimulationConfig) (current_time : float) (b : Buffers)
             (m : Measurements) (sched : Schedule) (plot : list (float * float)),
        let '(b', _, sched', _) := step2_aggregation cfg current_time b m sched plot in
        if (next_aggregation_time sched <=? current_time)%float
        then next_aggregation_time sched'
             = (next_aggregation_time sched + aggregation_interval_s cfg)%float
             /\ next_sampling_time sched' = next_sampling_time sched
             /\ n_samples b' = []
        else b' = b /\ sched' = sched)
  /\ match Examples.run Examples.cfg_10_50 [] 48 with
     | Ok before =>
         match advance_and_sample Examples.cfg_10_50 (ls_sim before)
                 (ls_buffers before) (ls_schedule before),
               loop_body Examples.cfg_10_50 1 before with
         | Ok (_, current_time, b1, sched1), Ok (_, after) =>
             current_time = 50%float
             /\ (next_aggregation_time sched1 <=? current_time)%float = true
             /\ length (n_samples b1) = 6%nat
             /\ ls_buffers after
                = {| n_samples := [];
                     queue_samples := [("X", {| qs_p := []; qs_s := [[]] |})] |}
             /\ next_sampling_time (ls_schedule after) = 60%float
             /\ next_aggregation_time (ls_schedule after) = 100%float
         | _, _ => False
         end
     | Raise _ => False
     end
  /\ match Examples.run Examples.cfg_10_50 [] 98 with
     | Ok before =>
         match advance_and_sample Examples.cfg_10_50 (ls_sim before)
                 (ls_buffers before) (ls_schedule before),
               loop_body Examples.cfg_10_50 1 before with
         | Ok (_, current_time, b1, sched1), Ok (_, after) =>
             current_time = 100%float
             /\ (next_aggregation_time sched1 <=? current_time)%float = true
             /\ length (n_samples b1) = 5%nat
             /\ ls_buffers after
                = {| n_samples := [];
                     queue_samples := [("X", {| qs_p := []; qs_s := [[]] |})] |}
             /\ next_sampling_time (ls_schedule after) = 110%float
             /\ next_aggregation_time (ls_schedule after) = 150%float
         | _, _ => False
         end
     | Raise _ => False
     end.
Proof.
  split.
  { intros Sim TR cfg sim current_time b sched. unfold step1_sampling.
    destruct (next_sampling_time sched <=? current_time)%float; [|done].
    destruct (get_sum_from_traci_detectors sim (algorithm_detector_ids cfg)); simpl; [|done].
    destruct (sample_intersections sim (solver_detectors cfg) (queue_samples b)); simpl; [|done].
    split; [done|]. split; [done|].
    rewrite length_app. simpl. lia. }
  split.
  { intros cfg current_time b m sched plot. unfold step2_aggregation.
    destruct (next_aggregation_time sched <=? current_time)%float; [|done].
    by destruct (n_samples b). }
  split; vm_compute; repeat split; reflexivity.
Qed.

(* ===================================================================== *)
(** * Further properties of main.py *)
(* ===================================================================== *)

(** ** More on dictionaries *)

Lemma get_del_Some {V : Type} (k k' : string) (v : V) (d : dict V) :
  PyDict.get k' (PyDict.del k d) = Some v -> PyDict.get k' d = Some v.
Proof.
  intros Hget. destruct (decide (k = k')) as [->|Hne].
  - by rewrite get_del_eq in Hget.
  - by rewrite get_del_ne in Hget.
Qed.

Lemma get_update_absent {V : Type} (k : string) (d o : dict V) :
  PyDict.get k o = None -> PyDict.get k (PyDict.update d o) = PyDict.get k d.
Proof.
  unfold PyDict.update. revert d.
  induction o as [|[k0 v0] o IH]; intros d Hk; simpl in *; [done|].
  destruct (decide (k = k0)) as [->|Hne]; [discriminate|].
  rewrite IH by done. apply get_set_ne. congruence.
Qed.

Lemma keys_set_prefix {V : Type} (k : string) (v : V) (d : dict V) :
  exists added, PyDict.keys (PyDict.set k v d) = PyDict.keys d ++ added.
Proof.
  rewrite keys_set. destruct (PyDict.mem k d).
  - exists []. by rewrite app_nil_r.
  - by exists [k].
Qed.

Lemma keys_update_prefix {V : Type} (d o : dict V) :
  exists added, PyDict.keys (PyDict.update d o) = PyDict.keys d ++ added.
Proof.
  unfold PyDict.update. revert d.
  induction o as [|[k0 v0] o IH]; intros d; simpl.
  - exists []. by rewrite app_nil_r.
  - destruct (IH (PyDict.set k0 v0 d)) as [added2 ->].
    destruct (keys_set_prefix k0 v0 d) as [added1 ->].
    exists (added1 ++ added2). by rewrite app_assoc.
Qed.

(** ** Detector sampler: other exceptions *)

Section SamplerFaults.
Context {Sim : Type} {TR : Traci Sim}.

(** X1.  An exception that is not a TraCI exception (a closed connection,
    say) is not turned into 0: the sampler raises the exception of the first
    detector that fails. *)
Theorem sampler_propagates_other_exceptions
        (sim : Sim) (pre post : list string) (d : string) (e : exn)
        (occs : list float)
        (Hpre : Forall2 (fun d o => lanearea_getLastIntervalOccupancy sim d = Ok o) pre occs)
        (Hd : lanearea_getLastIntervalOccupancy sim d = Raise e)
        (He : is_traci_exception e = false) :
  get_sum_from_traci_detectors sim (pre ++ d :: post) = Raise e.
Proof.
  unfold get_sum_from_traci_detectors.
  rewrite sum_detectors_app, (sum_detectors_ok _ _ _ _ Hpre).
  simpl. rewrite Hd. simpl. by rewrite He.
Qed.

End SamplerFaults.

(** ** Rewriting a signal program: what is kept *)

Lemma replan_replan d ph : replan d (replan d ph) = replan d ph.
Proof. by destruct d. Qed.

(** X2.  Applying the same plan a second time changes nothing. *)
Theorem update_phases_idempotent
        (new_times : GreenTimes) (phase_info : PhaseInfo) (phs : list Phase) :
  update_phases new_times phase_info (update_phases new_times phase_info phs)
  = update_phases new_times phase_info phs.
Proof.
  apply list_eq. intros k.
  rewrite !lookup_update_phases.
  destruct (phs !! k) as [ph|]; simpl; [|done].
  by rewrite replan_replan.
Qed.

Lemma state_replan d ph : state (replan d ph) = state ph.
Proof. by destruct d. Qed.

Lemma minDur_replan d ph : minDur (replan d ph) = minDur ph.
Proof. by destruct d. Qed.

Lemma maxDur_replan d ph : maxDur (replan d ph) = maxDur ph.
Proof. by destruct d. Qed.

(** X3.  The rewrite touches durations only: the signal states and the
    minimum and maximum durations of all phases, and the id, type and
    current phase index of the program, are those of the program read. *)
Theorem update_logic_keeps_all_but_durations
        (new_times : GreenTimes) (phase_info : PhaseInfo) (logic : Logic) :
  let written := update_logic new_times phase_info logic in
  map state (phases written) = map state (phases logic)
  /\ map minDur (phases written) = map minDur (phases logic)
  /\ map maxDur (phases written) = map maxDur (phases logic)
  /\ programID written = programID logic
  /\ logic_type written = logic_type logic
  /\ currentPhaseIndex written = currentPhaseIndex logic.
Proof.
  intros written. unfold written. simpl.
  repeat split.
  all: apply list_eq; intros k; rewrite !list_lookup_fmap, lookup_update_phases.
  all: destruct (phases logic !! k) as [ph|]; simpl; [|done].
  - by rewrite state_replan.
  - by rewrite minDur_replan.
  - by rewrite maxDur_replan.
Qed.

(** The duration planned for an index when the secondary indices are
    pairwise distinct and none of them is primary. *)
Lemma planned_duration_plain (new_times : GreenTimes) (phase_info : PhaseInfo) :
  NoDup (secondary_phases phase_info) ->
  (forall idx, idx ∈ pi_p phase_info -> idx ∉ secondary_phases phase_info) ->
  (forall idx, idx ∈ pi_p phase_info ->
               planned_duration new_times phase_info idx = Some (gt_p new_times))
  /\ (forall j idx, secondary_phases phase_info !! j = Some idx ->
                    planned_duration new_times phase_info idx = gt_s new_times !! j)
  /\ (forall idx, idx ∉ pi_p phase_info -> idx ∉ secondary_phases phase_info ->
                  planned_duration new_times phase_info idx = None).
Proof.
  intros Hdistinct Hdisjoint.
  assert (forall idx, idx ∉ secondary_phases phase_info ->
            secondary_duration (gt_s new_times) 0 (secondary_phases phase_info) idx
            = None) as Habsent.
  { intros idx Hidx. apply secondary_duration_None. intros j Hj.
    exfalso. apply Hidx. by eapply list_elem_of_lookup_2. }
  unfold planned_duration. split.
  { intros idx Hin. rewrite (Habsent _ (Hdisjoint _ Hin)). by rewrite decide_True. }
  split.
  { intros j idx Hj.
    assert (idx ∉ pi_p phase_info) as Hnotp.
    { intros Hin. apply (Hdisjoint _ Hin). by eapply list_elem_of_lookup_2. }
    assert (forall j', secondary_phases phase_info !! j' = Some idx -> j' = j) as Hunique.
    { intros j' Hj'. by eapply NoDup_lookup. }
    destruct (gt_s new_times !! j) as [d|] eqn:Hd.
    - rewrite (secondary_duration_last _ 0 _ _ j d Hj Hd); [done|].
      intros j' Hlt Hj'. apply Hunique in Hj'. lia.
    - assert (secondary_duration (gt_s new_times) 0 (secondary_phases phase_info) idx
              = None) as ->.
      { apply secondary_duration_None. intros j' Hj'. apply Hunique in Hj'. by subst. }
      by rewrite decide_False. }
  intros idx Hnotp Hnots. rewrite (Habsent _ Hnots). by rewrite decide_False.
Qed.

(** X4.  When the first indices of the non-empty secondary groups are
    pairwise distinct and none of them is listed as primary, the rewrite is
    the plain one: every in-range primary phase takes the primary duration,
    the phase of the [j]-th such group takes the [j]-th secondary duration
    when the plan has one and is kept otherwise, and every phase that is
    not listed is kept. *)
Theorem update_phases_without_overlap
        (new_times : GreenTimes) (phase_info : PhaseInfo) (phs : list Phase)
        (Hdistinct : NoDup (secondary_phases phase_info))
        (Hdisjoint : forall idx, idx ∈ pi_p phase_info ->
                                 idx ∉ secondary_phases phase_info) :
  (forall (k : nat) ph,
      Z.of_nat k ∈ pi_p phase_info ->
      phs !! k = Some ph ->
      update_phases new_times phase_info phs !! k
      = Some (with_duration (gt_p new_times) ph))
  /\ (forall (j k : nat) ph,
        secondary_phases phase_info !! j = Some (Z.of_nat k) ->
        phs !! k = Some ph ->
        update_phases new_times phase_info phs !! k
        = Some (match gt_s new_times !! j with
                | Some d => with_duration d ph
                | None => ph
                end))
  /\ (forall (k : nat) ph,
        Z.of_nat k ∉ pi_p phase_info ->
        Z.of_nat k ∉ secondary_phases phase_info ->
        phs !! k = Some ph ->
        update_phases new_times phase_info phs !! k = Some ph).
Proof.
  destruct (planned_duration_plain new_times phase_info Hdistinct Hdisjoint)
    as (Hprimary & Hsecondary & Hother).
  split.
  { intros k ph Hin Hph. by rewrite lookup_update_phases, Hph, (Hprimary _ Hin). }
  split.
  { intros j k ph Hj Hph. rewrite lookup_update_phases, Hph, (Hsecondary _ _ Hj).
    by destruct (gt_s new_times !! j). }
  intros k ph Hnotp Hnots Hph.
  by rewrite lookup_update_phases, Hph, (Hother _ Hnotp Hnots).
Qed.

(** ** Pending plan store: what a drain leaves alone *)

(** X5.  A drain never changes the activity flag, keeps the keys of the
    store in their order (new intersections go last), keeps the keys
    unique, and leaves the entry of every intersection for which nothing is
    published as it was.  When the flag is off, nothing is drained and the
    published plans stay in the hand-off dictionary. *)
Theorem prepare_logic_update_frame
        (shared_dict : SharedDict) (pending : dict GreenTimes) :
  let drained := prepare_logic_update shared_dict pending in
  is_active (fst drained) = is_active shared_dict
  /\ (exists added, PyDict.keys (snd drained) = PyDict.keys pending ++ added)
  /\ (NoDup (PyDict.keys pending) -> NoDup (PyDict.keys (snd drained)))
  /\ (forall int_id,
        (forall plans, green_times shared_dict = Some plans ->
                       PyDict.get int_id plans = None) ->
        PyDict.get int_id (snd drained) = PyDict.get int_id pending)
  /\ (shared_is_active shared_dict = false -> drained = (shared_dict, pending)).
Proof.
  intros drained. unfold drained, prepare_logic_update.
  destruct (shared_is_active shared_dict) eqn:Hactive.
  - destruct (green_times shared_dict) as [plans|] eqn:Hplans.
    + destruct (PyDict.is_empty plans) eqn:Hempty; simpl.
      * split; [done|]. split; [exists []; by rewrite app_nil_r|].
        split; [done|]. split; [done|]. discriminate.
      * split; [done|]. split; [apply keys_update_prefix|].
        split; [apply NoDup_keys_update|].
        split; [|discriminate].
        intros int_id Hnone. apply get_update_absent. by apply Hnone.
    + simpl. split; [done|]. split; [exists []; by rewrite app_nil_r|].
      split; [done|]. split; [done|]. discriminate.
  - simpl. split; [done|]. split; [exists []; by rewrite app_nil_r|].
    split; [done|]. split; done.
Qed.

(** ** Actuation pass: what it never does *)

Section ActuationSafety.
Context {Sim : Type} {TR : Traci Sim}.
Variable config_manager : IntersectionConfigManager.
Variable sim_step : float.

(** One turn of the loop either leaves the store as it is or removes the
    entry of its own intersection; it changes the simulator only through a
    write-back, which takes a cycle state with the trigger. *)
Lemma apply_one_effect (sim sim' : Sim) (pending pending' : dict GreenTimes) int_id :
  apply_one config_manager sim_step (sim, pending) int_id = Ok (sim', pending') ->
  (pending' = pending \/ pending' = PyDict.del int_id pending)
  /\ (sim' = sim
      \/ exists tl_id cs,
           get_traffic_light_id config_manager int_id = Some tl_id
           /\ read_cycle_state sim tl_id = Ok (Some cs)
           /\ trigger sim_step cs = true).
Proof.
  unfold apply_one.
  destruct (get_traffic_light_id config_manager int_id) as [tl_id|] eqn:Htl.
  2:{ intros Heq. inversion Heq; subst. split; by left. }
  destruct (String.eqb tl_id "").
  { intros Heq. inversion Heq; subst. split; by left. }
  unfold check_and_apply.
  destruct (read_cycle_state sim tl_id) as [[cs|]|e] eqn:Hcs; simpl.
  - destruct (trigger sim_step cs) eqn:Htrigger.
    + unfold dict_item. destruct (PyDict.get int_id pending) as [plan|]; simpl.
      * destruct (get_phase_info config_manager int_id) as [phase_info|].
        -- destruct (update_traffic_light_logic sim tl_id plan phase_info) as [sim1|e] eqn:Hupd;
             simpl.
           ++ intros Heq. inversion Heq; subst. split; [by right|].
              right. by exists tl_id, cs.
           ++ unfold on_exception.
              destruct (is_traci_exception e);
                [destruct (str_contains _ _)|];
                intros Heq; inversion Heq; subst; simpl; split; auto.
        -- intros Heq. inversion Heq; subst. split; by left.
      * intros Heq. inversion Heq; subst. split; by left.
    + intros Heq. inversion Heq; subst. split; by left.
  - intros Heq. inversion Heq; subst. split; by left.
  - unfold on_exception.
    destruct (is_traci_exception e); [destruct (str_contains _ _)|];
      intros Heq; inversion Heq; subst; simpl; split; auto.
Qed.

Lemma apply_each_keeps int_ids (s s' : Sim * dict GreenTimes) :
  apply_each config_manager sim_step int_ids s = Ok s' ->
  (forall int_id plan,
      PyDict.get int_id (snd s') = Some plan ->
      PyDict.get int_id (snd s) = Some plan)
  /\ sublist (PyDict.keys (snd s')) (PyDict.keys (snd s)).
Proof.
  revert s s'.
  induction int_ids as [|int_id rest IH]; intros [sim pending] s' Hrun; simpl in Hrun.
  - inversion Hrun; subst. split; [done | reflexivity].
  - destruct (apply_one config_manager sim_step (sim, pending) int_id)
      as [[sim1 pending1]|] eqn:Hone; [|discriminate].
    simpl in Hrun. destruct (IH _ _ Hrun) as [Hget Hsub].
    destruct (apply_one_effect _ _ _ _ _ Hone) as [[->| ->] _]; simpl in *.
    + done.
    + split.
      * intros k plan Hk. eapply get_del_Some. by apply Hget.
      * etransitivity; [exact Hsub | apply keys_del_sublist].
Qed.

Lemma apply_pending_keeps (st st' : Sim * dict GreenTimes) :
  apply_pending_updates_on_cycle_start config_manager sim_step st = Ok st' ->
  (forall int_id plan,
      PyDict.get int_id (snd st') = Some plan ->
      PyDict.get int_id (snd st) = Some plan)
  /\ sublist (PyDict.keys (snd st')) (PyDict.keys (snd st)).
Proof.
  unfold apply_pending_updates_on_cycle_start. intros Hpass.
  destruct (PyDict.is_empty (snd st)).
  - inversion Hpass; subst. split; [done | reflexivity].
  - by apply (apply_each_keeps _ _ _ Hpass).
Qed.

(** X6.  An actuation pass never adds an entry to the store and never
    alters a plan that stays: every entry of the store after the pass was
    in the store before it, with the same plan, in the same order, and the
    keys stay unique. *)
Theorem actuation_only_removes_entries
        (st st' : Sim * dict GreenTimes)
        (Hpass : apply_pending_updates_on_cycle_start config_manager sim_step st = Ok st') :
  (forall int_id plan,
      PyDict.get int_id (snd st') = Some plan ->
      PyDict.get int_id (snd st) = Some plan)
  /\ sublist (PyDict.keys (snd st')) (PyDict.keys (snd st))
  /\ (NoDup (PyDict.keys (snd st)) -> NoDup (PyDict.keys (snd st'))).
Proof.
  destruct (apply_pending_keeps _ _ Hpass) as [Hget Hsub].
  split; [exact Hget|]. split; [exact Hsub|].
  intros Hnodup. eapply sublist_NoDup; [exact Hnodup | exact Hsub].
Qed.

(** X7.  The simulator is written only at a cycle boundary: when no
    intersection of the store whose cycle state can be read satisfies the
    trigger, the pass leaves the simulator exactly as it was. *)
Theorem no_write_outside_cycle_boundary
        (sim sim' : Sim) (pending pending' : dict GreenTimes)
        (Hpass : apply_pending_updates_on_cycle_start config_manager sim_step (sim, pending)
                 = Ok (sim', pending'))
        (Hquiet : forall int_id tl_id cs,
            int_id ∈ PyDict.keys pending ->
            get_traffic_light_id config_manager int_id = Some tl_id ->
            read_cycle_state sim tl_id = Ok (Some cs) ->
            trigger sim_step cs = false) :
  sim' = sim.
Proof.
  assert (forall int_ids store store',
            (forall int_id, int_id ∈ int_ids -> int_id ∈ PyDict.keys pending) ->
            apply_each config_manager sim_step int_ids (sim, store) = Ok (sim', store') ->
            sim' = sim) as Heach.
  { induction int_ids as [|int_id rest IH]; intros store store' Hin Hrun; simpl in Hrun.
    - by inversion Hrun.
    - destruct (apply_one config_manager sim_step (sim, store) int_id)
        as [[sim1 store1]|] eqn:Hone; [|discriminate].
      simpl in Hrun.
      destruct (apply_one_effect _ _ _ _ _ Hone) as [_ [->|(tl_id & cs & Htl & Hcs & Htrig)]].
      + eapply IH; [|exact Hrun]. intros k Hk. apply Hin. by apply list_elem_of_further.
      + rewrite (Hquiet int_id tl_id cs) in Htrig; [discriminate| |done|done].
        apply Hin. apply list_elem_of_here. }
  unfold apply_pending_updates_on_cycle_start in Hpass. simpl in Hpass.
  destruct (PyDict.is_empty pending).
  - by inversion Hpass.
  - by eapply Heach.
Qed.

(** X8.  A TraCI error during the write-back loses the plan: when the
    trigger fires and the PhaseInfo is present, but reading the program
    definition or writing it back raises a TraCI exception (whatever its
    message), the simulator is left as it was and the entry is removed all
    the same. *)
Theorem traci_error_in_write_back_drops_plan
        (sim : Sim) (pending : dict GreenTimes) (int_id tl_id msg : string)
        (cs : CycleState) (new_green_times : GreenTimes) (phase_info : PhaseInfo)
        (Htl : get_traffic_light_id config_manager int_id = Some tl_id)
        (Hne : tl_id <> "")
        (Hcs : read_cycle_state sim tl_id = Ok (Some cs))
        (Htrigger : trigger sim_step cs = true)
        (Hplan : PyDict.get int_id pending = Some new_green_times)
        (Hpi : get_phase_info config_manager int_id = Some phase_info)
        (Hfail : trafficlight_getCompleteRedYellowGreenDefinition sim tl_id
                 = Raise (TraCIException msg)
                 \/ exists logic rest,
                      trafficlight_getCompleteRedYellowGreenDefinition sim tl_id
                      = Ok (logic :: rest)
                      /\ trafficlight_setCompleteRedYellowGreenDefinition sim tl_id
                           (update_logic new_green_times phase_info logic)
                         = Raise (TraCIException msg)) :
  apply_one config_manager sim_step (sim, pending) int_id
  = Ok (sim, PyDict.del int_id pending)
  /\ PyDict.get int_id (PyDict.del int_id pending) = None.
Proof.
  split; [|apply get_del_eq].
  rewrite (apply_one_cases config_manager sim_step sim pending int_id tl_id cs
             new_green_times Htl Hne Hcs Hplan), Htrigger, Hpi.
  assert (update_traffic_light_logic sim tl_id new_green_times phase_info = Ok sim) as ->;
    [|done].
  unfold update_traffic_light_logic.
  destruct Hfail as [Hread|(logic & rest & Hread & Hwrite)].
  - by rewrite Hread.
  - rewrite Hread. simpl. by rewrite Hwrite.
Qed.

(** X9.  Every other fault keeps the plan for a later step and leaves the
    simulator alone: the running program is not among the programs read; a
    query raises something that is not a TraCI exception, or a TraCI
    exception whose message does not contain "does not exist"; or the
    write-back raises something that is not a TraCI exception (an empty
    program definition, a closed connection). *)
Theorem other_faults_keep_the_plan
        (sim : Sim) (pending : dict GreenTimes) (int_id tl_id : string)
        (Htl : get_traffic_light_id config_manager int_id = Some tl_id)
        (Hne : tl_id <> "")
        (Hfault :
           read_cycle_state sim tl_id = Ok None
           \/ (exists e, read_cycle_state sim tl_id = Raise e
                         /\ (is_traci_exception e = false
                             \/ str_contains "does not exist" (exn_str e) = false))
           \/ (exists cs plan phase_info e,
                 read_cycle_state sim tl_id = Ok (Some cs)
                 /\ PyDict.get int_id pending = Some plan
                 /\ get_phase_info config_manager int_id = Some phase_info
                 /\ update_traffic_light_logic sim tl_id plan phase_info = Raise e)) :
  apply_one config_manager sim_step (sim, pending) int_id = Ok (sim, pending).
Proof.
  destruct Hfault as [Hnone|[(e & Hraise & He)|(cs & plan & phase_info & e & Hcs & Hplan & Hpi & Hupd)]].
  - rewrite (apply_one_resolved _ _ _ _ _ Htl Hne).
    unfold check_and_apply. by rewrite Hnone.
  - rewrite (apply_one_resolved _ _ _ _ _ Htl Hne).
    unfold check_and_apply. rewrite Hraise.
    cbn [bind try_except]. unfold on_exception.
    destruct He as [-> | He]; [done|].
    rewrite He. by destruct (is_traci_exception e).
  - rewrite (apply_one_cases config_manager sim_step sim pending int_id tl_id cs plan
               Htl Hne Hcs Hplan), Hpi, Hupd.
    by destruct (trigger sim_step cs).
Qed.

End ActuationSafety.
(** ** Actuation pass: faults of one intersection *)

Section FaultIsolation.
Context {Sim : Type} {TR : Traci Sim}.
Variable config_manager : IntersectionConfigManager.
Variable sim_step : float.








End FaultIsolation.




(** ** Sample buffers: start-up and sampling *)

Lemma initialize_from_spec (detectors : dict SolverDetectors) (acc : dict QueueSamples) :
  NoDup (PyDict.keys detectors) ->
  (forall k, k ∈ PyDict.keys detectors -> PyDict.get k acc = None) ->
  PyDict.keys
    (fold_left (fun q kv => PyDict.set (fst kv) (empty_queue_samples (snd kv)) q)
       detectors acc)
  = PyDict.keys acc ++ PyDict.keys detectors
  /\ forall k,
       PyDict.get k
         (fold_left (fun q kv => PyDict.set (fst kv) (empty_queue_samples (snd kv)) q)
            detectors acc)
       = match PyDict.get k detectors with
         | Some d => Some (empty_queue_samples d)
         | None => PyDict.get k acc
         end.
Proof.
  revert acc. induction detectors as [|[k0 d0] rest IH]; intros acc Hnodup Hfresh.
  - simpl. split; [by rewrite app_nil_r | done].
  - apply NoDup_cons in Hnodup as [Hk0 Hrest]. simpl in Hk0.
    assert (PyDict.get k0 acc = None) as Hacc by (apply Hfresh; apply list_elem_of_here).
    cbn [fold_left fst snd].
    destruct (IH (PyDict.set k0 (empty_queue_samples d0) acc) Hrest) as [Hkeys Hget].
    { intros k Hk. rewrite get_set_ne.
      - apply Hfresh. by apply list_elem_of_further.
      - intros ->. by apply Hk0. }
    split.
    + rewrite Hkeys, keys_set. unfold PyDict.mem. rewrite Hacc.
      by rewrite <- app_assoc.
    + intros k. rewrite Hget. cbn [PyDict.get].
      destruct (decide (k = k0)) as [->|Hne].
      * apply get_None_keys in Hk0. rewrite Hk0. by rewrite get_set_eq.
      * destruct (PyDict.get k rest); [done|]. apply get_set_ne. congruence.
Qed.

(** X10.  At start-up every monitored intersection has its buffers, and
    only they: the buffers have the keys of the detector configuration, in
    its order, and each intersection starts with an empty primary buffer
    and one empty buffer per secondary phase. *)
Theorem initialize_queue_samples_spec
        (detectors : dict SolverDetectors)
        (Hnodup : NoDup (PyDict.keys detectors)) :
  PyDict.keys (initialize_queue_samples detectors) = PyDict.keys detectors
  /\ (forall int_id,
        PyDict.get int_id (initialize_queue_samples detectors)
        = match PyDict.get int_id detectors with
          | Some d => Some {| qs_p := []; qs_s := replicate (length (sd_s d)) [] |}
          | None => None
          end).
Proof.
  destruct (initialize_from_spec detectors PyDict.empty Hnodup) as [Hkeys Hget]; [done|].
  split; [exact Hkeys | exact Hget].
Qed.

Section SamplingProperties.
Context {Sim : Type} {TR : Traci Sim}.

Lemma sample_secondary_spec (sim : Sim) i s_phases s_samples s_samples' :
  sample_secondary sim i s_phases s_samples = Ok s_samples' ->
  length s_samples' = length s_samples
  /\ forall j buffer,
       s_samples !! j = Some buffer ->
       exists new,
         s_samples' !! j = Some (buffer ++ new)
         /\ length new = if decide (i <= j < i + length s_phases)%nat then 1%nat else 0%nat.
Proof.
  revert i s_samples.
  induction s_phases as [|s_detectors rest IH]; intros i s_samples Hrun; simpl in Hrun.
  - inversion Hrun; subst. split; [done|]. intros j buffer Hj.
    exists []. rewrite app_nil_r. split; [done|].
    case_decide; simpl in *; lia.
  - destruct (s_samples !! i) as [b|] eqn:Hi.
    + destruct (get_sum_from_traci_detectors sim s_detectors) as [v|]; [|discriminate].
      simpl in Hrun. destruct (IH _ _ Hrun) as [Hlen Hbuf].
      rewrite length_insert in Hlen. split; [done|].
      intros j buffer Hj. destruct (decide (j = i)) as [->|Hne].
      * rewrite Hi in Hj. inversion Hj; subst.
        destruct (Hbuf i (buffer ++ [v])) as (new & Hnew & Hlennew).
        { apply list_lookup_insert_eq. by eapply lookup_lt_Some. }
        exists ([v] ++ new). rewrite app_assoc. split; [done|].
        rewrite length_app, Hlennew.
        repeat case_decide; simpl in *; lia.
      * destruct (Hbuf j buffer) as (new & Hnew & Hlennew).
        { rewrite list_lookup_insert_ne by done. exact Hj. }
        exists new. split; [done|]. rewrite Hlennew.
        repeat case_decide; simpl in *; lia.
    + destruct (IH _ _ Hrun) as [Hlen Hbuf]. split; [done|].
      intros j buffer Hj.
      destruct (Hbuf j buffer Hj) as (new & Hnew & Hlennew).
      exists new. split; [done|]. rewrite Hlennew.
      assert (j < i)%nat.
      { apply lookup_lt_Some in Hj. apply lookup_ge_None in Hi. lia. }
      repeat case_decide; simpl in *; lia.
Qed.

Lemma keys_sample_intersections (sim : Sim) detectors queue_samples queue_samples' :
  sample_intersections sim detectors queue_samples = Ok queue_samples' ->
  PyDict.keys queue_samples' = PyDict.keys queue_samples.
Proof.
  revert queue_samples.
  induction detectors as [|[k d] rest IH]; intros queue_samples Hrun; simpl in Hrun.
  - by inversion Hrun.
  - unfold dict_item in Hrun.
    destruct (PyDict.get k queue_samples) as [qs|] eqn:Hk; [|discriminate].
    simpl in Hrun.
    destruct (get_sum_from_traci_detectors sim (sd_p d)) as [p|]; [|discriminate].
    simpl in Hrun.
    destruct (sample_secondary sim 0 (sd_s d) (qs_s qs)) as [s'|]; [|discriminate].
    simpl in Hrun. rewrite (IH _ Hrun), keys_set. unfold PyDict.mem. by rewrite Hk.
Qed.

Lemma sample_intersections_spec (sim : Sim) detectors queue_samples queue_samples' :
  NoDup (PyDict.keys detectors) ->
  sample_intersections sim detectors queue_samples = Ok queue_samples' ->
  forall int_id,
    match PyDict.get int_id detectors with
    | Some d =>
        exists qs qs' sample,
          PyDict.get int_id queue_samples = Some qs
          /\ PyDict.get int_id queue_samples' = Some qs'
          /\ qs_p qs' = qs_p qs ++ [sample]
          /\ length (qs_s qs') = length (qs_s qs)
          /\ forall j buffer,
               qs_s qs !! j = Some buffer ->
               exists new,
                 qs_s qs' !! j = Some (buffer ++ new)
                 /\ length new = if decide (j < length (sd_s d))%nat then 1%nat else 0%nat
    | None => PyDict.get int_id queue_samples' = PyDict.get int_id queue_samples
    end.
Proof.
  revert queue_samples.
  induction detectors as [|[k d] rest IH]; intros queue_samples Hnodup Hrun int_id;
    simpl in Hrun.
  - inversion Hrun; subst. done.
  - apply NoDup_cons in Hnodup as [Hk Hrest]. simpl in Hk.
    unfold dict_item in Hrun.
    destruct (PyDict.get k queue_samples) as [qs|] eqn:Hqs; [|discriminate].
    simpl in Hrun.
    destruct (get_sum_from_traci_detectors sim (sd_p d)) as [p|]; [|discriminate].
    simpl in Hrun.
    destruct (sample_secondary sim 0 (sd_s d) (qs_s qs)) as [s'|] eqn:Hsec; [|discriminate].
    simpl in Hrun.
    specialize (IH _ Hrest Hrun int_id). simpl.
    destruct (decide (int_id = k)) as [->|Hne].
    + apply get_None_keys in Hk. rewrite Hk in IH.
      rewrite get_set_eq in IH.
      destruct (sample_secondary_spec _ _ _ _ _ Hsec) as [Hlen Hbuf].
      exists qs, {| qs_p := qs_p qs ++ [p]; qs_s := s' |}, p.
      split; [done|]. split; [done|]. split; [done|]. split; [done|].
      intros j buffer Hj. destruct (Hbuf j buffer Hj) as (new & Hnew & Hlennew).
      exists new. split; [done|]. rewrite Hlennew.
      repeat case_decide; simpl in *; lia.
    + rewrite get_set_ne in IH by congruence. exact IH.
Qed.

(** X11.  A sampling that fires adds exactly one sample at the end of
    every buffer and keeps what the buffers held: the network-wide buffer,
    the primary buffer of every monitored intersection, and each of its
    secondary buffers that has a secondary phase in the detector
    configuration (a buffer beyond the configured phases is left alone).
    The buffers of an intersection stay the same in number, and no
    intersection gains or loses its buffers. *)
Theorem sampling_appends_one_sample_per_buffer
        (cfg : SimulationConfig) (sim : Sim) (current_time : float)
        (b b' : Buffers) (sched sched' : Schedule)
        (Hnodup : NoDup (PyDict.keys (solver_detectors cfg)))
        (Hfire : (next_sampling_time sched <=? current_time)%float = true)
        (Hrun : step1_sampling cfg sim current_time b sched = Ok (b', sched')) :
  (exists sample, n_samples b' = n_samples b ++ [sample])
  /\ PyDict.keys (queue_samples b') = PyDict.keys (queue_samples b)
  /\ (forall int_id d,
        PyDict.get int_id (solver_detectors cfg) = Some d ->
        exists qs qs' sample,
          PyDict.get int_id (queue_samples b) = Some qs
          /\ PyDict.get int_id (queue_samples b') = Some qs'
          /\ qs_p qs' = qs_p qs ++ [sample]
          /\ length (qs_s qs') = length (qs_s qs)
          /\ forall j buffer,
               qs_s qs !! j = Some buffer ->
               exists new,
                 qs_s qs' !! j = Some (buffer ++ new)
                 /\ length new = if decide (j < length (sd_s d))%nat then 1%nat else 0%nat)
  /\ (forall int_id,
        PyDict.get int_id (solver_detectors cfg) = None ->
        PyDict.get int_id (queue_samples b') = PyDict.get int_id (queue_samples b)).
Proof.
  unfold step1_sampling in Hrun. rewrite Hfire in Hrun.
  destruct (get_sum_from_traci_detectors sim (algorithm_detector_ids cfg)) as [n|];
    [|discriminate].
  simpl in Hrun.
  destruct (sample_intersections sim (solver_detectors cfg) (queue_samples b))
    as [queue_samples'|] eqn:Hsample; [|discriminate].
  simpl in Hrun. inversion Hrun; subst. simpl.
  split; [by exists n|].
  split; [by eapply keys_sample_intersections|].
  pose proof (sample_intersections_spec _ _ _ _ Hnodup Hsample) as Hspec.
  split.
  - intros int_id d Hd. specialize (Hspec int_id). by rewrite Hd in Hspec.
  - intros int_id Hd. specialize (Hspec int_id). by rewrite Hd in Hspec.
Qed.

Lemma sum_detectors_raise (sim : Sim) ids total e :
  sum_detectors sim ids total = Raise e ->
  exists det_id, det_id ∈ ids /\ lanearea_getLastIntervalOccupancy sim det_id = Raise e.
Proof.
  revert total. induction ids as [|d ids IH]; intros total Hrun; simpl in Hrun.
  - discriminate.
  - destruct (lanearea_getLastIntervalOccupancy sim d) as [o|e'] eqn:Hd; simpl in Hrun.
    + destruct (IH _ Hrun) as (det & Hin & Hdet).
      exists det. split; [by apply list_elem_of_further | done].
    + inversion Hrun; subst. exists d. split; [apply list_elem_of_here | done].
Qed.

Lemma get_sum_total (sim : Sim) ids :
  (forall det_id e,
      lanearea_getLastIntervalOccupancy sim det_id = Raise e ->
      is_traci_exception e = true) ->
  exists v, get_sum_from_traci_detectors sim ids = Ok v.
Proof.
  intros Hfaults. unfold get_sum_from_traci_detectors, try_except.
  destruct (sum_detectors sim ids 0%float) as [v|e] eqn:Hsum; [by exists v|].
  destruct (sum_detectors_raise _ _ _ _ Hsum) as (det & _ & Hdet).
  rewrite (Hfaults _ _ Hdet). by eexists.
Qed.

Lemma sample_secondary_total (sim : Sim) i s_phases s_samples :
  (forall det_id e,
      lanearea_getLastIntervalOccupancy sim det_id = Raise e ->
      is_traci_exception e = true) ->
  exists s_samples', sample_secondary sim i s_phases s_samples = Ok s_samples'.
Proof.
  intros Hfaults. revert i s_samples.
  induction s_phases as [|s_detectors rest IH]; intros i s_samples; simpl; [by eexists|].
  destruct (s_samples !! i); [|apply IH].
  destruct (get_sum_total sim s_detectors Hfaults) as [v ->]. simpl. apply IH.
Qed.

Lemma sample_intersections_total (sim : Sim) detectors queue_samples :
  (forall det_id e,
      lanearea_getLastIntervalOccupancy sim det_id = Raise e ->
      is_traci_exception e = true) ->
  (forall int_id, int_id ∈ PyDict.keys detectors ->
                  PyDict.mem int_id queue_samples = true) ->
  exists queue_samples',
    sample_intersections sim detectors queue_samples = Ok queue_samples'.
Proof.
  intros Hfaults. revert queue_samples.
  induction detectors as [|[k d] rest IH]; intros queue_samples Hmem; simpl;
    [by eexists|].
  pose proof (Hmem k (list_elem_of_here _ _)) as Hk. unfold PyDict.mem in Hk.
  unfold dict_item.
  destruct (PyDict.get k queue_samples) as [qs|] eqn:Hqs; [|discriminate]. simpl.
  destruct (get_sum_total sim (sd_p d) Hfaults) as [p ->]. simpl.
  destruct (sample_secondary_total sim 0 (sd_s d) (qs_s qs) Hfaults) as [s' ->]. simpl.
  apply IH. intros int_id Hin. unfold PyDict.mem.
  destruct (decide (k = int_id)) as [->|Hne].
  - by rewrite get_set_eq.
  - rewrite get_set_ne by done. apply (Hmem int_id). by apply list_elem_of_further.
Qed.

Lemma sampling_survives_traci_faults_lemma
      (cfg : SimulationConfig) (sim : Sim) (current_time : float)
      (b : Buffers) (sched : Schedule) :
  (forall det_id e,
      lanearea_getLastIntervalOccupancy sim det_id = Raise e ->
      is_traci_exception e = true) ->
  (forall int_id,
      int_id ∈ PyDict.keys (solver_detectors cfg) ->
      PyDict.mem int_id (queue_samples b) = true) ->
  exists b' sched', step1_sampling cfg sim current_time b sched = Ok (b', sched').
Proof.
  intros Hfaults Hbuffers. unfold step1_sampling.
  destruct (next_sampling_time sched <=? current_time)%float; [|by eexists _, _].
  destruct (get_sum_total sim (algorithm_detector_ids cfg) Hfaults) as [n ->]. simpl.
  destruct (sample_intersections_total sim (solver_detectors cfg) (queue_samples b)
              Hfaults Hbuffers) as [q' ->].
  simpl. by eexists _, _.
Qed.

(** X12.  Detector faults alone never abort a sampling: when every failing
    occupancy query fails with a TraCI exception and every intersection of
    the detector configuration has its buffers, the sampling step returns
    normally, and so does each call of the sampler. *)
Theorem sampling_survives_traci_faults
        (cfg : SimulationConfig) (sim : Sim) (current_time : float)
        (b : Buffers) (sched : Schedule)
        (Hfaults : forall det_id e,
            lanearea_getLastIntervalOccupancy sim det_id = Raise e ->
            is_traci_exception e = true)
        (Hbuffers : forall int_id,
            int_id ∈ PyDict.keys (solver_detectors cfg) ->
            PyDict.mem int_id (queue_samples b) = true) :
  (exists b' sched', step1_sampling cfg sim current_time b sched = Ok (b', sched'))
  /\ (forall detector_ids, exists v,
        get_sum_from_traci_detectors sim detector_ids = Ok v).
Proof.
  split.
  - by apply sampling_survives_traci_faults_lemma.
  - intros detector_ids. by apply get_sum_total.
Qed.

End SamplingProperties.

(** ** The loop: what a run keeps *)

Lemma NoDup_keys_prepare_logic_update shared_dict pending :
  NoDup (PyDict.keys pending) ->
  NoDup (PyDict.keys (snd (prepare_logic_update shared_dict pending))).
Proof.
  intros Hnodup. unfold prepare_logic_update.
  destruct (shared_is_active shared_dict); [|done].
  destruct (green_times shared_dict) as [plans|]; [|done].
  destruct (PyDict.is_empty plans); [done|]. simpl. by apply NoDup_keys_update.
Qed.

Section RunInvariants.
Context {Sim : Type} {TR : Traci Sim} {Ctl : Type} {CT : Controller Ctl}.
Variable cfg : SimulationConfig.
Variable sim_step : float.

Lemma loop_body_keeps (st st' : LoopState Sim Ctl) flag :
  loop_body cfg sim_step st = Ok (flag, st') ->
  PyDict.keys (queue_samples (ls_buffers st')) = PyDict.keys (queue_samples (ls_buffers st))
  /\ (NoDup (PyDict.keys (ls_pending st)) -> NoDup (PyDict.keys (ls_pending st'))).
Proof.
  unfold loop_body. intros Hbody.
  destruct (simulationStep (ls_sim st)) as [sim1|]; [|discriminate]. simpl in Hbody.
  destruct (simulation_getTime sim1) as [t|]; [|discriminate]. simpl in Hbody.
  destruct (step1_sampling cfg sim1 t (ls_buffers st) (ls_schedule st))
    as [[b1 sched1]|] eqn:Hsample; [|discriminate].
  simpl in Hbody.
  destruct (step2_aggregation cfg t b1 (ls_measurements st) sched1 (ls_plot st))
    as [[[b2 m2] sched2] plot2] eqn:Haggregate.
  destruct (step3_control cfg t m2 _ sched2) as [[c3 sched3]|] eqn:Hcontrol; [|discriminate].
  simpl in Hbody.
  destruct (apply_pending_updates_on_cycle_start _ _ _) as [[sim4 pending4]|] eqn:Hpass;
    [|discriminate].
  simpl in Hbody. inversion Hbody; subst. simpl. clear Hbody.
  split.
  - transitivity (PyDict.keys (queue_samples b1)).
    + unfold step2_aggregation in Haggregate.
      destruct (next_aggregation_time sched1 <=? t)%float.
      * destruct (n_samples b1); inversion Haggregate; subst; apply keys_clear_samples.
      * by inversion Haggregate.
    + unfold step1_sampling in Hsample.
      destruct (next_sampling_time (ls_schedule st) <=? t)%float.
      * destruct (get_sum_from_traci_detectors sim1 (algorithm_detector_ids cfg));
          [|discriminate].
        simpl in Hsample.
        destruct (sample_intersections sim1 (solver_detectors cfg)
                    (queue_samples (ls_buffers st))) as [q'|] eqn:Hq; [|discriminate].
        simpl in Hsample. inversion Hsample; subst. simpl.
        by eapply keys_sample_intersections.
      * by inversion Hsample.
  - intros Hnodup.
    destruct (apply_pending_keeps _ _ _ _ Hpass) as [_ Hsub]. simpl in Hsub.
    eapply sublist_NoDup; [|exact Hsub].
    unfold step3_control in Hcontrol.
    destruct (next_control_time sched2 <=? t)%float.
    + destruct (run_simulation_step _ _ _ _ _ _) as [[[qg ctl'] published]|];
        [|discriminate].
      simpl in Hcontrol.
      pose proof (NoDup_keys_prepare_logic_update published (ls_pending st) Hnodup) as Hprep.
      destruct (prepare_logic_update published (ls_pending st)) as [shared' pending'].
      inversion Hcontrol; subst. exact Hprep.
    + inversion Hcontrol; subst. exact Hnodup.
Qed.

(** X13.  Along a run of any number of iterations the set of sample
    buffers never changes (the same intersections, in the same order), and
    the store never holds two entries for one intersection. *)
Theorem run_keeps_buffers_and_unique_store
        (n : nat) (st st' : LoopState Sim Ctl)
        (Hrun : iterate_body cfg sim_step n st = Ok st') :
  PyDict.keys (queue_samples (ls_buffers st')) = PyDict.keys (queue_samples (ls_buffers st))
  /\ (NoDup (PyDict.keys (ls_pending st)) -> NoDup (PyDict.keys (ls_pending st'))).
Proof.
  revert st Hrun. induction n as [|n IH]; intros st Hrun; simpl in Hrun.
  - by inversion Hrun.
  - destruct (loop_body cfg sim_step st) as [[flag st1]|] eqn:Hbody; [|discriminate].
    simpl in Hrun.
    destruct (loop_body_keeps _ _ _ Hbody) as [Hkeys1 Hnodup1].
    destruct (IH _ Hrun) as [Hkeys Hnodup].
    split; [by rewrite Hkeys | auto].
Qed.

(** X14.  The loop runs whole iterations only, and no more than its
    bound: its final state is that of some number [k] of iterations of the
    body, and when it stops before the bound, either the simulator expects
    no more vehicles in the final state (the test is made before the
    simulator is stepped) or the last iteration ended in [break]. *)
Theorem run_loop_is_whole_iterations
        (fuel : nat) (st st' : LoopState Sim Ctl)
        (Hrun : run_loop cfg sim_step fuel st = Ok st') :
  exists k, (k <= fuel)%nat
    /\ iterate_body cfg sim_step k st = Ok st'
    /\ (k = fuel
        \/ (exists expected,
              simulation_getMinExpectedNumber (ls_sim st') = Ok expected
              /\ expected <= 0)
        \/ (exists previous, loop_body cfg sim_step previous = Ok (false, st'))).
Proof.
  revert st Hrun. induction fuel as [|fuel IH]; intros st Hrun; simpl in Hrun.
  - inversion Hrun; subst. exists 0%nat. split; [lia|]. split; [done | by left].
  - destruct (simulation_getMinExpectedNumber (ls_sim st)) as [expected|] eqn:Hexp;
      [|discriminate].
    simpl in Hrun. destruct (0 <? expected) eqn:Hpos.
    + destruct (loop_body cfg sim_step st) as [[flag st1]|] eqn:Hbody; [|discriminate].
      simpl in Hrun. destruct flag.
      * destruct (IH _ Hrun) as (k & Hle & Hiter & Hstop).
        exists (S k). split; [lia|]. split.
        -- simpl. by rewrite Hbody.
        -- destruct Hstop as [->|[Hstop|Hstop]]; [by left | right; by left | right; by right].
      * inversion Hrun; subst. exists 1%nat. split; [lia|]. split.
        -- simpl. by rewrite Hbody.
        -- right. right. by exists st.
    + inversion Hrun; subst. exists 0%nat. split; [lia|]. split; [done|].
      right. left. exists expected. split; [done|]. by apply Z.ltb_ge.
Qed.

(** X20.  The buffers never fall out of step with the detector
    configuration: in every state that a run reaches from the start-up,
    each monitored intersection has its buffers, so a sampling cannot fail
    for a missing buffer; with detector faults that are TraCI exceptions
    only, the sampling of the next iteration returns normally. *)
Theorem sampling_never_misses_a_buffer
        (sim0 : Sim) (controller : Ctl)
        (n : nat) (st0 st : LoopState Sim Ctl)
        (Hnodup : NoDup (PyDict.keys (solver_detectors cfg)))
        (Hinit : initial_state cfg sim0 controller = Ok (sim_step, st0))
        (Hrun : iterate_body cfg sim_step n st0 = Ok st) :
  PyDict.keys (queue_samples (ls_buffers st)) = PyDict.keys (solver_detectors cfg)
  /\ (forall int_id,
        int_id ∈ PyDict.keys (solver_detectors cfg) ->
        PyDict.mem int_id (queue_samples (ls_buffers st)) = true)
  /\ (forall sim current_time,
        (forall det_id e,
            lanearea_getLastIntervalOccupancy sim det_id = Raise e ->
            is_traci_exception e = true) ->
        exists b' sched',
          step1_sampling cfg sim current_time (ls_buffers st) (ls_schedule st)
          = Ok (b', sched')).
Proof.
  assert (PyDict.keys (queue_samples (ls_buffers st0))
          = PyDict.keys (solver_detectors cfg)) as Hkeys0.
  { unfold initial_state in Hinit.
    destruct (simulation_getDeltaT sim0); [|discriminate]. simpl in Hinit.
    destruct (simulationStep sim0) as [sim1|]; [|discriminate]. simpl in Hinit.
    destruct (get_sum_from_traci_detectors sim1 (algorithm_detector_ids cfg));
      [|discriminate].
    simpl in Hinit. inversion Hinit; subst. simpl.
    destruct (initialize_from_spec (solver_detectors cfg) PyDict.empty Hnodup)
      as [Hkeys _]; [done|].
    exact Hkeys. }
  assert (forall m (s s' : LoopState Sim Ctl),
            iterate_body cfg sim_step m s = Ok s' ->
            PyDict.keys (queue_samples (ls_buffers s'))
            = PyDict.keys (queue_samples (ls_buffers s))) as Hiter.
  { induction m as [|m IH]; intros s s' Hs; simpl in Hs.
    - by inversion Hs.
    - destruct (loop_body cfg sim_step s) as [[flag s1]|] eqn:Hbody; [|discriminate].
      simpl in Hs. rewrite (IH _ _ Hs).
      by destruct (loop_body_keeps _ _ _ Hbody). }
  assert (PyDict.keys (queue_samples (ls_buffers st))
          = PyDict.keys (solver_detectors cfg)) as Hkeys.
  { by rewrite (Hiter _ _ _ Hrun). }
  assert (forall int_id,
            int_id ∈ PyDict.keys (solver_detectors cfg) ->
            PyDict.mem int_id (queue_samples (ls_buffers st)) = true) as Hmem.
  { intros int_id Hin. unfold PyDict.mem.
    destruct (PyDict.get int_id (queue_samples (ls_buffers st))) eqn:Hget; [done|].
    apply get_None_keys in Hget. by rewrite Hkeys in Hget. }
  split; [exact Hkeys|]. split; [exact Hmem|].
  intros sim current_time Hfaults.
  by apply sampling_survives_traci_faults_lemma.
Qed.

End RunInvariants.

(* ===================================================================== *)
(** * Properties of the configuration tools *)
(* ===================================================================== *)

(** ** The generated phase layout *)

Lemma assign_phases_loop_spec i phases_list p_phase s_phases :
  assign_phases_loop i phases_list p_phase s_phases
  = match p_phase with
    | Some _ =>
        (p_phase, s_phases ++ map secondary_params (long_green_positions i phases_list))
    | None =>
        match long_green_positions i phases_list with
        | [] => (None, s_phases)
        | first :: others =>
            (Some (primary_params first), s_phases ++ map secondary_params others)
        end
    end.
Proof.
  revert i p_phase s_phases.
  induction phases_list as [|phase rest IH]; intros i p_phase s_phases; simpl.
  - destruct p_phase; by rewrite ?app_nil_r.
  - destruct (is_long_green phase).
    + destruct p_phase as [p|].
      * rewrite IH. simpl. by rewrite <- app_assoc.
      * by rewrite IH.
    + apply IH.
Qed.

Lemma long_green_positions_spec i phases_list k :
  k ∈ long_green_positions i phases_list
  <-> (i <= k)%nat
      /\ exists phase, phases_list !! (k - i)%nat = Some phase /\ is_long_green phase = true.
Proof.
  revert i. induction phases_list as [|phase rest IH]; intros i; simpl.
  - split; [intros Hin; by apply elem_of_nil in Hin|].
    intros (_ & phase & Hphase & _). by rewrite lookup_nil in Hphase.
  - assert (k ∈ long_green_positions (S i) rest
            <-> (i < k)%nat
                /\ exists phase', (phase :: rest) !! (k - i)%nat = Some phase'
                                  /\ is_long_green phase' = true) as Hrest.
    { rewrite IH. split.
      - intros (Hle & phase' & Hphase' & Hgreen). split; [lia|].
        exists phase'. split; [|done].
        replace (k - i)%nat with (S (k - S i)) by lia. done.
      - intros (Hlt & phase' & Hphase' & Hgreen). split; [lia|].
        exists phase'. split; [|done].
        replace (k - i)%nat with (S (k - S i)) in Hphase' by lia. done. }
    destruct (is_long_green phase) eqn:Hgreen.
    + rewrite elem_of_cons, Hrest. split.
      * intros [->|(Hlt & Hex)].
        -- split; [lia|]. exists phase. by rewrite Nat.sub_diag.
        -- split; [lia | done].
      * intros (Hle & phase' & Hphase' & Hgreen').
        destruct (decide (k = i)) as [->|Hne]; [by left|].
        right. split; [lia|]. by exists phase'.
    + rewrite Hrest. split.
      * intros (Hlt & Hex). split; [lia | done].
      * intros (Hle & phase' & Hphase' & Hgreen').
        destruct (decide (k = i)) as [->|Hne].
        -- rewrite Nat.sub_diag in Hphase'. simpl in Hphase'.
           inversion Hphase'; subst. congruence.
        -- split; [lia|]. by exists phase'.
Qed.

Lemma long_green_positions_ge i phases_list :
  Forall (fun k => i <= k)%nat (long_green_positions i phases_list).
Proof.
  revert i. induction phases_list as [|phase rest IH]; intros i; simpl.
  - constructor.
  - pose proof (IH (S i)) as Hall.
    destruct (is_long_green phase).
    + constructor; [lia|]. eapply Forall_impl; [exact Hall|]. simpl. lia.
    + eapply Forall_impl; [exact Hall|]. simpl. lia.
Qed.

Lemma long_green_positions_NoDup i phases_list :
  NoDup (long_green_positions i phases_list).
Proof.
  revert i. induction phases_list as [|phase rest IH]; intros i; simpl.
  - constructor.
  - destruct (is_long_green phase); [|apply IH].
    constructor; [|apply IH].
    intros Hin. pose proof (long_green_positions_ge (S i) rest) as Hall.
    rewrite Forall_forall in Hall. specialize (Hall _ Hin). lia.
Qed.

(** X15.  The generated layout is "the first long green phase is the
    primary one, the others are secondary": with the positions of the
    phases that show a green and last more than 5 s, in increasing order,
    the primary entry is the first of them and the secondary entries are
    the others, in order, each with its single index.  Without such a phase
    the primary entry is phase 0 and there is no secondary entry; for a
    program without phases there is no primary entry at all. *)
Theorem assign_phases_spec (phases_list : list NetPhase) :
  assign_phases phases_list
  = match long_green_positions 0 phases_list with
    | first :: others => (Some (primary_params first), map secondary_params others)
    | [] =>
        (match phases_list with
         | [] => None
         | _ :: _ => Some (primary_params 0)
         end, [])
    end.
Proof.
  unfold assign_phases. rewrite assign_phases_loop_spec.
  destruct (long_green_positions 0 phases_list) as [|first others]; simpl.
  - by destruct phases_list.
  - by destruct phases_list.
Qed.

(** X16.  Every index of a generated layout names a phase of the program
    it was generated from, every entry holds exactly one index, no index
    occurs twice.  So the actuator finds no empty group and no
    out-of-range index in such a layout. *)
Theorem assign_phases_indices_in_range
        (phases_list : list NetPhase) (p_phase : PhaseParams)
        (s_phases : list PhaseParams)
        (Hgen : assign_phases phases_list = (Some p_phase, s_phases)) :
  (exists k, phase_indices p_phase = [Z.of_nat k] /\ (k < length phases_list)%nat)
  /\ (forall sp, sp ∈ s_phases ->
        exists k phase,
          phase_indices sp = [Z.of_nat k]
          /\ phases_list !! k = Some phase
          /\ is_long_green phase = true)
  /\ NoDup (phase_indices p_phase ++ concat (map phase_indices s_phases))
  /\ secondary_phases (phase_info_of p_phase s_phases)
     = concat (map phase_indices s_phases).
Proof.
  rewrite assign_phases_spec in Hgen.
  pose proof (long_green_positions_spec 0 phases_list) as Hspec.
  pose proof (long_green_positions_NoDup 0 phases_list) as Hnodup.
  assert (forall ks, concat (map phase_indices (map secondary_params ks))
                     = map Z.of_nat ks) as Hconcat.
  { induction ks as [|k ks IH]; simpl; [done|]. by rewrite IH. }
  assert (forall ks, omap head (map phase_indices (map secondary_params ks))
                     = map Z.of_nat ks) as Hheads.
  { induction ks as [|k ks IH]; [done|]. simpl. f_equal. exact IH. }
  destruct (long_green_positions 0 phases_list) as [|first others] eqn:Hpos.
  - destruct phases_list as [|phase rest]; [discriminate|].
    inversion Hgen; subst. simpl.
    split; [exists 0%nat; split; [done | lia]|].
    split; [intros sp Hsp; by apply elem_of_nil in Hsp|].
    split; [apply NoDup_singleton | done].
  - inversion Hgen; subst. clear Hgen.
    split.
    { exists first. split; [done|].
      destruct (proj1 (Hspec first) (list_elem_of_here _ _)) as (_ & phase & Hphase & _).
      rewrite Nat.sub_0_r in Hphase. by eapply lookup_lt_Some. }
    split.
    { intros sp Hsp. apply list_elem_of_fmap in Hsp as (k & -> & Hk).
      destruct (proj1 (Hspec k) (list_elem_of_further _ _ _ Hk)) as (_ & phase & Hphase & Hgreen).
      rewrite Nat.sub_0_r in Hphase. by exists k, phase. }
    split.
    { rewrite Hconcat. simpl.
      change (Z.of_nat first :: map Z.of_nat others) with (map Z.of_nat (first :: others)).
      apply NoDup_fmap_2; [intros x y; lia | done]. }
    unfold secondary_phases, phase_info_of. cbn [pi_s]. by rewrite Hheads, Hconcat.
Qed.

(** X17.  For a layout generated from a program, the actuator rewrites the
    program of that many phases exactly as the layout reads: the primary
    phase takes the primary duration, the phase of the [j]-th secondary
    entry takes the [j]-th secondary duration of the plan when the plan has
    one and is kept otherwise, and every other phase is kept. *)
Theorem generated_layout_is_applied_by_position
        (phases_list : list NetPhase) (p_phase : PhaseParams)
        (s_phases : list PhaseParams) (new_times : GreenTimes) (phs : list Phase)
        (Hgen : assign_phases phases_list = (Some p_phase, s_phases))
        (Hlen : length phs = length phases_list) :
  let written := update_phases new_times (phase_info_of p_phase s_phases) phs in
  (exists k ph,
      phase_indices p_phase = [Z.of_nat k]
      /\ phs !! k = Some ph
      /\ written !! k = Some (with_duration (gt_p new_times) ph))
  /\ (forall j sp,
        s_phases !! j = Some sp ->
        exists k ph,
          phase_indices sp = [Z.of_nat k]
          /\ phs !! k = Some ph
          /\ written !! k = Some (match gt_s new_times !! j with
                                  | Some d => with_duration d ph
                                  | None => ph
                                  end))
  /\ (forall (k : nat) ph,
        Z.of_nat k ∉ phase_indices p_phase ->
        (forall sp, sp ∈ s_phases -> Z.of_nat k ∉ phase_indices sp) ->
        phs !! k = Some ph ->
        written !! k = Some ph).
Proof.
  intros written. unfold written. clear written.
  rewrite assign_phases_spec in Hgen.
  pose proof (long_green_positions_spec 0 phases_list) as Hspec.
  pose proof (long_green_positions_NoDup 0 phases_list) as Hnodup.
  assert (forall ks, omap head (map phase_indices (map secondary_params ks))
                     = map Z.of_nat ks) as Hheads.
  { induction ks as [|k ks IH]; [done|]. simpl. f_equal. exact IH. }
  assert (exists first others,
            (first < length phases_list)%nat
            /\ p_phase = primary_params first
            /\ s_phases = map secondary_params others
            /\ NoDup (first :: others)
            /\ Forall (fun k => k < length phases_list)%nat others)
    as (first & others & Hfirst & -> & -> & Hdistinct & Hothers).
  { destruct (long_green_positions 0 phases_list) as [|first others] eqn:Hpos.
    - destruct phases_list as [|phase rest]; [discriminate|].
      inversion Hgen; subst. exists 0%nat, [].
      split; [simpl; lia|]. split; [done|]. split; [done|].
      split; [apply NoDup_singleton | constructor].
    - inversion Hgen; subst. exists first, others.
      split.
      { destruct (proj1 (Hspec first) (list_elem_of_here _ _)) as (_ & phase & Hphase & _).
        rewrite Nat.sub_0_r in Hphase. by eapply lookup_lt_Some. }
      split; [done|]. split; [done|]. split; [done|].
      rewrite Forall_forall. intros k Hk.
      destruct (proj1 (Hspec k) (list_elem_of_further _ _ _ Hk)) as (_ & phase & Hphase & _).
      rewrite Nat.sub_0_r in Hphase. by eapply lookup_lt_Some. }
  clear Hgen Hspec Hnodup.
  apply NoDup_cons in Hdistinct as [Hfirst_not Hdistinct].
  set (phase_info := phase_info_of (primary_params first) (map secondary_params others)).
  assert (secondary_phases phase_info = map Z.of_nat others) as Hsec.
  { unfold phase_info, secondary_phases, phase_info_of. cbn [pi_s]. apply Hheads. }
  assert (pi_p phase_info = [Z.of_nat first]) as Hprim by done.
  destruct (planned_duration_plain new_times phase_info) as (Hprimary & Hsecondary & Hother).
  { rewrite Hsec. apply NoDup_fmap_2; [intros x y; lia | done]. }
  { intros idx Hin. rewrite Hprim in Hin. apply list_elem_of_singleton in Hin as ->.
    rewrite Hsec. intros Hin. apply list_elem_of_fmap in Hin as (k & Hk & Hin).
    apply Nat2Z.inj in Hk as ->. done. }
  split.
  { destruct (lookup_lt_is_Some_2 phs first) as [ph Hph]; [lia|].
    exists first, ph. split; [done|]. split; [done|].
    rewrite lookup_update_phases, Hph, Hprimary; [done|].
    rewrite Hprim. apply list_elem_of_here. }
  split.
  { intros j sp Hj. rewrite list_lookup_fmap in Hj.
    destruct (others !! j) as [k|] eqn:Hk; [|discriminate]. inversion Hj; subst.
    assert (k < length phases_list)%nat as Hlt.
    { rewrite Forall_forall in Hothers. apply Hothers. by eapply list_elem_of_lookup_2. }
    destruct (lookup_lt_is_Some_2 phs k) as [ph Hph]; [lia|].
    exists k, ph. split; [done|]. split; [done|].
    rewrite lookup_update_phases, Hph, (Hsecondary j).
    - by destruct (gt_s new_times !! j).
    - rewrite Hsec, list_lookup_fmap, Hk. done. }
  intros k ph Hnotp Hnots Hph.
  rewrite lookup_update_phases, Hph, Hother; [done|done|].
  rewrite Hsec. intros Hin. apply list_elem_of_fmap in Hin as (k' & Hk' & Hin).
  apply Nat2Z.inj in Hk' as <-.
  apply (Hnots (secondary_params k)); [|apply list_elem_of_here].
  apply list_elem_of_fmap. by exists k.
Qed.

(** ** Lane ids and edges *)

Lemma split_on_not_nil sep s : split_on sep s <> [].
Proof.
  destruct s as [|c s]; simpl; [done|].
  destruct (Ascii.eqb c sep); [done|]. by destruct (split_on sep s).
Qed.

Lemma split_on_app sep a b :
  split_on sep (a +:+ String sep b) = split_on sep a ++ split_on sep b.
Proof.
  induction a as [|c a IH]; simpl.
  - by rewrite Ascii.eqb_refl.
  - rewrite IH. destruct (Ascii.eqb c sep); [done|].
    destruct (split_on sep a) as [|first others] eqn:Ha; [|done].
    by apply split_on_not_nil in Ha.
Qed.

Lemma split_on_without_separator sep s :
  sep ∉ String.list_ascii_of_string s -> split_on sep s = [s].
Proof.
  induction s as [|c s IH]; simpl; [done|].
  intros Hnot. apply not_elem_of_cons in Hnot as [Hne Hnot].
  destruct (Ascii.eqb c sep) eqn:Heq.
  - apply Ascii.eqb_eq in Heq. congruence.
  - by rewrite (IH Hnot).
Qed.

Lemma join_with_split_on sep s :
  join_with (String sep EmptyString) (split_on sep s) = s.
Proof.
  induction s as [|c s IH]; simpl; [done|].
  destruct (Ascii.eqb c sep) eqn:Heq.
  - apply Ascii.eqb_eq in Heq. subst c.
    destruct (split_on sep s) as [|first others] eqn:Hs.
    + by apply split_on_not_nil in Hs.
    + simpl in *. by rewrite IH.
  - destruct (split_on sep s) as [|first others] eqn:Hs.
    + by apply split_on_not_nil in Hs.
    + destruct others as [|second others]; simpl in *; by rewrite <- IH.
Qed.

(** X18.  The edge of a lane id undoes the construction of the lane id:
    for a lane index without underscore, the edge of
    [from_edge + "_" + from_lane_idx] is [from_edge], whatever underscores the
    edge id itself contains; and a lane id without any underscore has the
    empty edge. *)
Theorem get_edge_from_lane_of_lane_id
        (from_edge from_lane_idx : string)
        (Hidx : underscore ∉ String.list_ascii_of_string from_lane_idx) :
  get_edge_from_lane (lane_id_of from_edge from_lane_idx) = from_edge
  /\ get_edge_from_lane from_lane_idx = EmptyString.
Proof.
  unfold get_edge_from_lane, lane_id_of. split.
  - change ("_" +:+ from_lane_idx) with (String underscore from_lane_idx).
    rewrite split_on_app, (split_on_without_separator _ _ Hidx).
    rewrite removelast_last.
    change "_" with (String underscore EmptyString).
    apply join_with_split_on.
  - by rewrite (split_on_without_separator _ _ Hidx).
Qed.

(** ** Detectors by lane *)

Lemma get_add_detector lane_to detector lane :
  PyDict.get lane (add_detector lane_to detector)
  = if decide (snd detector = lane)
    then Some (default [] (PyDict.get lane lane_to) ++ [fst detector])
    else PyDict.get lane lane_to.
Proof.
  unfold add_detector. destruct detector as [det_id lane_id]. simpl.
  unfold PyDict.mem.
  destruct (decide (lane_id = lane)) as [->|Hne].
  - rewrite get_set_eq. destruct (PyDict.get lane lane_to) eqn:Hget.
    + by rewrite Hget.
    + by rewrite get_set_eq.
  - rewrite get_set_ne by done.
    destruct (PyDict.get lane_id lane_to); [done|]. by rewrite get_set_ne.
Qed.

Lemma NoDup_keys_add_detector lane_to detector :
  NoDup (PyDict.keys lane_to) -> NoDup (PyDict.keys (add_detector lane_to detector)).
Proof.
  intros Hnodup. unfold add_detector.
  apply NoDup_keys_set. destruct (PyDict.mem (snd detector) lane_to); [done|].
  by apply NoDup_keys_set.
Qed.

Lemma lane_entry_cons found det_id ids :
  lane_entry (Some (default [] found ++ [det_id])) ids = lane_entry found (det_id :: ids).
Proof.
  unfold lane_entry. destruct found as [l|], ids as [|id ids]; simpl;
    by rewrite <- ?app_assoc, ?app_nil_r.
Qed.

Lemma get_fold_add_detector detectors lane_to lane :
  PyDict.get lane (fold_left add_detector detectors lane_to)
  = lane_entry (PyDict.get lane lane_to)
      (map fst (filter (fun d => snd d = lane) detectors)).
Proof.
  revert lane_to. induction detectors as [|[det_id lane_id] rest IH]; intros lane_to.
  - simpl. unfold lane_entry. destruct (PyDict.get lane lane_to); by rewrite ?app_nil_r.
  - cbn [fold_left]. rewrite IH, get_add_detector, filter_cons. cbn [fst snd].
    destruct (decide (lane_id = lane)) as [->|Hne]; [|done].
    rewrite fmap_cons. apply lane_entry_cons.
Qed.

(** X19.  [parse_detectors] groups the detectors by lane and loses none:
    for every lane, the list stored under the lane is the list of the ids of
    the detectors of that lane, in document order, and a lane without
    detector has no entry; no lane is stored twice; and the lists of all
    E1 and all E2 detectors are the ids in document order. *)
Theorem parse_detectors_groups_by_lane
        (induction_loops lane_area_detectors : list DetectorElement) :
  let '(lane_to_e1, lane_to_e2, all_e1, all_e2) :=
    parse_detectors induction_loops lane_area_detectors in
  (forall lane,
      PyDict.get lane lane_to_e1
      = match map fst (filter (fun d => snd d = lane) induction_loops) with
        | [] => None
        | ids => Some ids
        end)
  /\ (forall lane,
        PyDict.get lane lane_to_e2
        = match map fst (filter (fun d => snd d = lane) lane_area_detectors) with
          | [] => None
          | ids => Some ids
          end)
  /\ NoDup (PyDict.keys lane_to_e1)
  /\ NoDup (PyDict.keys lane_to_e2)
  /\ (forall det_id lane,
        (det_id, lane) ∈ lane_area_detectors ->
        exists ids, PyDict.get lane lane_to_e2 = Some ids /\ det_id ∈ ids)
  /\ all_e1 = map fst induction_loops
  /\ all_e2 = map fst lane_area_detectors.
Proof.
  unfold parse_detectors.
  assert (forall detectors lane,
            PyDict.get lane (fold_left add_detector detectors PyDict.empty)
            = match map fst (filter (fun d => snd d = lane) detectors) with
              | [] => None
              | ids => Some ids
              end) as Hget.
  { intros detectors lane. rewrite get_fold_add_detector. unfold lane_entry.
    cbn [PyDict.get PyDict.empty default].
    match goal with
    | |- context [match ?ids with [] => None | _ :: _ => _ end] => by destruct ids
    end. }
  assert (forall detectors,
            NoDup (PyDict.keys (fold_left add_detector detectors PyDict.empty)))
    as Hnodup.
  { intros detectors.
    assert (NoDup (PyDict.keys (@PyDict.empty (list string)))) as Hempty
      by apply NoDup_nil_2.
    revert Hempty. generalize (@PyDict.empty (list string)).
    induction detectors as [|d rest IH]; intros acc Hacc; simpl; [done|].
    by apply IH, NoDup_keys_add_detector. }
  split; [apply Hget|]. split; [apply Hget|].
  split; [apply Hnodup|]. split; [apply Hnodup|].
  split; [|done].
  intros det_id lane Hin. rewrite Hget.
  assert (det_id ∈ map fst (filter (fun d => snd d = lane) lane_area_detectors)) as Hmem.
  { apply list_elem_of_fmap. exists (det_id, lane). split; [done|].
    by apply list_elem_of_filter. }
  destruct (map fst (filter _ lane_area_detectors)) as [|id ids] eqn:Hids.
  - by apply elem_of_nil in Hmem.
  - by eexists.
Qed.

(* ===================================================================== *)
(** * Closed instances *)
(* ===================================================================== *)

Lemma sampler_propagates_other_exceptions_witness :
  get_sum_from_traci_detectors MoreExamples.sim_lost_detector (["d1"] ++ "gone" :: ["d2"])
  = Raise (FatalTraCIError "connection closed by SUMO").
Proof.
  apply (sampler_propagates_other_exceptions (TR:=MockSim.traci)
           MoreExamples.sim_lost_detector ["d1"] ["d2"] "gone"
           (FatalTraCIError "connection closed by SUMO") [50%float]).
  - repeat constructor.
  - reflexivity.
  - reflexivity.
Defined.

Lemma update_phases_without_overlap_witness :
  map duration (update_phases Examples.plan_X Examples.phase_info_X Examples.seven_phases)
  !! 5%nat
  = Some 12%float.
Proof.
  destruct (update_phases_without_overlap Examples.plan_X Examples.phase_info_X
              Examples.seven_phases (NoDup_singleton 5))
    as (_ & Hsecondary & _).
  - intros idx Hin Hsec. apply list_elem_of_singleton in Hin.
    apply list_elem_of_singleton in Hsec. congruence.
  - rewrite list_lookup_fmap.
    rewrite (Hsecondary 0%nat 5%nat (mkPhase 10 "rGrG" 10 10) eq_refl eq_refl).
    reflexivity.
Defined.

Lemma actuation_only_removes_entries_witness :
  exists st',
    apply_pending_updates_on_cycle_start Examples.config_X 1
      (Examples.sim_at_2, [("W", Examples.plan_old); ("X", Examples.plan_X)])
    = Ok st'
    /\ sublist (PyDict.keys (snd st')) ["W"; "X"].
Proof.
  destruct (apply_pending_updates_on_cycle_start Examples.config_X 1
              (Examples.sim_at_2, [("W", Examples.plan_old); ("X", Examples.plan_X)]))
    as [st'|] eqn:Hpass; [|vm_compute in Hpass; discriminate].
  exists st'. split; [reflexivity|].
  destruct (actuation_only_removes_entries (TR:=MockSim.traci)
              Examples.config_X 1 _ _ Hpass) as (_ & Hsub & _).
  exact Hsub.
Defined.

Lemma no_write_outside_cycle_boundary_witness :
  exists pending',
    apply_pending_updates_on_cycle_start Examples.config_X 1
      (Examples.sim_early, [("X", Examples.plan_X)])
    = Ok (Examples.sim_early, pending').
Proof.
  destruct (apply_pending_updates_on_cycle_start Examples.config_X 1
              (Examples.sim_early, [("X", Examples.plan_X)]))
    as [[sim' pending']|] eqn:Hpass; [|vm_compute in Hpass; discriminate].
  exists pending'.
  rewrite (no_write_outside_cycle_boundary (TR:=MockSim.traci)
             Examples.config_X 1 _ _ _ _ Hpass); [reflexivity|].
  intros int_id tl_id cs Hin Htl Hcs.
  apply list_elem_of_singleton in Hin. subst int_id.
  vm_compute in Htl. inversion Htl. subst tl_id.
  vm_compute in Hcs. inversion Hcs. reflexivity.
Defined.

Lemma traci_error_in_write_back_drops_plan_witness :
  apply_one Examples.config_X 1 (MoreExamples.sim_busy, [("X", Examples.plan_X)]) "X"
  = Ok (MoreExamples.sim_busy, []).
Proof.
  destruct (traci_error_in_write_back_drops_plan (TR:=MoreExamples.flaky_traci)
              Examples.config_X 1 MoreExamples.sim_busy [("X", Examples.plan_X)]
              "X" "tl_X" "command failed"
              {| current_phase_index := 6; num_phases := 7; time_to_next_switch := 1 |}
              Examples.plan_X Examples.phase_info_X
              eq_refl ltac:(discriminate) eq_refl eq_refl eq_refl eq_refl
              (or_introl eq_refl)) as [Hdropped _].
  exact Hdropped.
Defined.

Lemma other_faults_keep_the_plan_witness :
  apply_one Examples.config_X 1 (MoreExamples.sim_closing, [("X", Examples.plan_X)]) "X"
  = Ok (MoreExamples.sim_closing, [("X", Examples.plan_X)]).
Proof.
  apply (other_faults_keep_the_plan (TR:=MoreExamples.flaky_traci)
           Examples.config_X 1 MoreExamples.sim_closing [("X", Examples.plan_X)]
           "X" "tl_X" eq_refl ltac:(discriminate)).
  right. right.
  exists {| current_phase_index := 6; num_phases := 7; time_to_next_switch := 1 |},
         Examples.plan_X, Examples.phase_info_X,
         (FatalTraCIError "connection closed by SUMO").
  repeat split; reflexivity.
Defined.

Lemma initialize_queue_samples_spec_witness :
  PyDict.get "X" (initialize_queue_samples (solver_detectors Examples.cfg_10_50))
  = Some {| qs_p := []; qs_s := [[]] |}.
Proof.
  destruct (initialize_queue_samples_spec (solver_detectors Examples.cfg_10_50)
              (NoDup_singleton "X")) as [_ Hget].
  rewrite Hget. reflexivity.
Defined.

Lemma sampling_appends_one_sample_per_buffer_witness :
  exists b' sched' sample,
    step1_sampling Examples.cfg_10_50 Examples.sim_at_2 2
      MoreExamples.start_buffers MoreExamples.start_schedule
    = Ok (b', sched')
    /\ n_samples b' = [sample].
Proof.
  destruct (step1_sampling Examples.cfg_10_50 Examples.sim_at_2 2
              MoreExamples.start_buffers MoreExamples.start_schedule)
    as [[b' sched']|] eqn:Hrun; [|vm_compute in Hrun; discriminate].
  destruct (sampling_appends_one_sample_per_buffer (TR:=MockSim.traci)
              Examples.cfg_10_50 Examples.sim_at_2 2
              MoreExamples.start_buffers b' MoreExamples.start_schedule sched'
              (NoDup_singleton "X") eq_refl Hrun) as [[sample Hsample] _].
  exists b', sched', sample. split; [reflexivity | exact Hsample].
Defined.

Lemma sampling_survives_traci_faults_witness :
  exists b' sched',
    step1_sampling Examples.cfg_10_50 Examples.sim_at_2 2
      MoreExamples.start_buffers MoreExamples.start_schedule
    = Ok (b', sched').
Proof.
  destruct (sampling_survives_traci_faults (TR:=MockSim.traci)
              Examples.cfg_10_50 Examples.sim_at_2 2
              MoreExamples.start_buffers MoreExamples.start_schedule) as [Hstep _].
  - intros det_id e. simpl. unfold MockSim.occupancy. simpl.
    repeat case_decide; intros Hraise; inversion Hraise; reflexivity.
  - intros int_id Hin. apply list_elem_of_singleton in Hin. subst int_id. reflexivity.
  - exact Hstep.
Defined.

Lemma run_keeps_buffers_and_unique_store_witness :
  exists st',
    iterate_body Examples.cfg_control_2 1 1 Examples.first_state = Ok st'
    /\ NoDup (PyDict.keys (ls_pending st')).
Proof.
  destruct (iterate_body Examples.cfg_control_2 1 1 Examples.first_state)
    as [st'|] eqn:Hrun; [|vm_compute in Hrun; discriminate].
  exists st'. split; [reflexivity|].
  destruct (run_keeps_buffers_and_unique_store (TR:=MockSim.traci)
              (CT:=MockSim.controller) Examples.cfg_control_2 1 1
              Examples.first_state st' Hrun) as [_ Hunique].
  apply Hunique. apply NoDup_nil_2.
Defined.

Lemma run_loop_is_whole_iterations_witness :
  exists st' k,
    run_loop Examples.cfg_control_2 1 3 Examples.first_state = Ok st'
    /\ (k <= 3)%nat
    /\ iterate_body Examples.cfg_control_2 1 k Examples.first_state = Ok st'.
Proof.
  destruct (run_loop Examples.cfg_control_2 1 3 Examples.first_state)
    as [st'|] eqn:Hrun; [|vm_compute in Hrun; discriminate].
  destruct (run_loop_is_whole_iterations (TR:=MockSim.traci) (CT:=MockSim.controller)
              Examples.cfg_control_2 1 3 Examples.first_state st' Hrun)
    as (k & Hle & Hiter & _).
  exists st', k. split; [reflexivity|]. split; [exact Hle | exact Hiter].
Defined.

Lemma assign_phases_indices_in_range_witness :
  assign_phases MoreExamples.net_phases
  = (Some (primary_params 0), [secondary_params 2; secondary_params 4; secondary_params 5])
  /\ secondary_phases
       (phase_info_of (primary_params 0)
          [secondary_params 2; secondary_params 4; secondary_params 5])
     = [2; 4; 5].
Proof.
  split; [reflexivity|].
  destruct (assign_phases_indices_in_range MoreExamples.net_phases (primary_params 0)
              [secondary_params 2; secondary_params 4; secondary_params 5] eq_refl)
    as (_ & _ & _ & Hsec).
  rewrite Hsec. reflexivity.
Defined.

Lemma generated_layout_is_applied_by_position_witness :
  exists k ph,
    phase_indices (secondary_params 4) = [Z.of_nat k]
    /\ Examples.seven_phases !! k = Some ph
    /\ update_phases Examples.plan_two
         (phase_info_of (primary_params 0)
            [secondary_params 2; secondary_params 4; secondary_params 5])
         Examples.seven_phases !! k
       = Some (with_duration 20 ph).
Proof.
  destruct (generated_layout_is_applied_by_position MoreExamples.net_phases
              (primary_params 0)
              [secondary_params 2; secondary_params 4; secondary_params 5]
              Examples.plan_two Examples.seven_phases eq_refl eq_refl)
    as (_ & Hsecondary & _).
  exact (Hsecondary 1%nat (secondary_params 4) eq_refl).
Defined.

Lemma get_edge_from_lane_of_lane_id_witness :
  get_edge_from_lane (lane_id_of "main_street_12" "0") = "main_street_12".
Proof.
  destruct (get_edge_from_lane_of_lane_id "main_street_12" "0") as [Hedge _].
  - intros Hin. apply list_elem_of_singleton in Hin. vm_compute in Hin. discriminate.
  - exact Hedge.
Defined.

Lemma sampling_never_misses_a_buffer_witness :
  exists st,
    Examples.run Examples.cfg_10_50 [] 3 = Ok st
    /\ PyDict.keys (queue_samples (ls_buffers st)) = ["X"].
Proof.
  destruct (initial_state (Ctl:=MockSim.script) Examples.cfg_10_50 Examples.sim_start [])
    as [[step_length st0]|] eqn:Hinit; [|vm_compute in Hinit; discriminate].
  destruct (iterate_body Examples.cfg_10_50 step_length 3 st0) as [st|] eqn:Hrun.
  - exists st. split.
    + unfold Examples.run. rewrite Hinit. simpl. exact Hrun.
    + destruct (sampling_never_misses_a_buffer (TR:=MockSim.traci)
                  (CT:=MockSim.controller) Examples.cfg_10_50
                  step_length Examples.sim_start [] 3 st0 st
                  (NoDup_singleton "X") Hinit Hrun) as [Hkeys _].
      exact Hkeys.
  - exfalso. vm_compute in Hinit. inversion Hinit; subst.
    vm_compute in Hrun. discriminate.
Defined.
